(** * Property viewer: bounding boxes, paginated fetch, result cache, viewport gate

    A shallow embedding of the core of [app.py]: the [BBox] value type
    (lines 37-61), the HTTP helper and the two ArcGIS queries (lines 64-127),
    the cached, paginated [fetch_features_geojson] (lines 130-168) and the
    zoom/area guards of [main] (lines 330-354).

    Python [float] is IEEE binary64: it is modelled by Rocq's primitive floats,
    whose operations are specified by [Prim2SF] and the [SF...] functions of
    [SpecFloat].  Python [int] is unbounded: it is modelled by [Z]. *)

From Stdlib Require Import ZArith List String Bool Lia Floats.
Import ListNotations.

Set Implicit Arguments.

(* ================================================================== *)
(** ** Python floats *)

Module PyFloat.

(** [a < b], [a > b], [a <= b], [a >= b] and [a == b] on two floats. *)
Definition lt (a b : float) : bool := PrimFloat.ltb a b.
Definition gt (a b : float) : bool := lt b a.
Definition le (a b : float) : bool := PrimFloat.leb a b.
Definition ge (a b : float) : bool := le b a.
Definition eq (a b : float) : bool := PrimFloat.eqb a b.

(** [x != x] holds exactly for NaN. *)
Definition is_number (x : float) : bool := eq x x.

(** The builtin [min(a, b)]: it keeps the first argument and replaces it by
    a later one only when that one compares strictly smaller. *)
Definition py_min (a b : float) : float := if lt b a then b else a.

(** The builtin [max(a, b)]: the later argument wins only when strictly
    greater. *)
Definition py_max (a b : float) : float := if gt b a then b else a.

(** [sorted([a, b])]: the sort is stable and swaps the two elements only
    when the second compares strictly smaller than the first. *)
Definition sorted2 (a b : float) : float * float :=
  if lt b a then (b, a) else (a, b).

(** One coordinate of [BBox.clamp]: [max(lo, min(hi, x))]. *)
Definition clamp1 (lo hi x : float) : float := py_max lo (py_min hi x).

(** On decoded floats: a zero or a (sub)normal number; a zero or NaN. *)
Definition SFfinite (x : spec_float) : bool :=
  match x with
  | S754_zero _ | S754_finite _ _ _ => true
  | _ => false
  end.

Definition SFzero_or_nan (x : spec_float) : bool :=
  match x with
  | S754_zero _ | S754_nan => true
  | _ => false
  end.

End PyFloat.

(* ================================================================== *)
(** ** BBox (app.py, lines 37-61) *)

Record BBox : Type := mkBBox {
  west : float;
  south : float;
  east : float;
  north : float
}.

(** [BBox.to_envelope]: the dict with keys xmin, ymin, xmax, ymax. *)
Record Envelope : Type := mkEnvelope {
  xmin : float;
  ymin : float;
  xmax : float;
  ymax : float
}.

Definition to_envelope (self : BBox) : Envelope :=
  mkEnvelope (west self) (south self) (east self) (north self).

Definition normalized (self : BBox) : BBox :=
  let '(w, e) := PyFloat.sorted2 (west self) (east self) in
  let '(s, n) := PyFloat.sorted2 (south self) (north self) in
  mkBBox w s e n.

Definition clamp (self : BBox) : BBox :=
  let w := PyFloat.py_max (-180)%float (PyFloat.py_min 180%float (west self)) in
  let e := PyFloat.py_max (-180)%float (PyFloat.py_min 180%float (east self)) in
  let s := PyFloat.py_max (-90)%float (PyFloat.py_min 90%float (south self)) in
  let n := PyFloat.py_max (-90)%float (PyFloat.py_min 90%float (north self)) in
  mkBBox w s e n.

Definition approx_area_deg2 (self : BBox) : float :=
  let b := clamp (normalized self) in
  PyFloat.py_max 0%float ((east b - west b) * (north b - south b))%float.

(** Vocabulary for the statements about boxes. *)

(** No coordinate is NaN. *)
Definition numeric (b : BBox) : bool :=
  PyFloat.is_number (west b) && PyFloat.is_number (south b)
  && PyFloat.is_number (east b) && PyFloat.is_number (north b).

(** [west <= east and south <= north]. *)
Definition ordered (b : BBox) : bool :=
  PyFloat.le (west b) (east b) && PyFloat.le (south b) (north b).

(** Longitudes in [-180, 180] and latitudes in [-90, 90]. *)
Definition in_range (b : BBox) : bool :=
  PyFloat.le (-180)%float (west b) && PyFloat.le (west b) 180%float
  && PyFloat.le (-180)%float (east b) && PyFloat.le (east b) 180%float
  && PyFloat.le (-90)%float (south b) && PyFloat.le (south b) 90%float
  && PyFloat.le (-90)%float (north b) && PyFloat.le (north b) 90%float.

(** Zero width or zero height. *)
Definition degenerate (b : BBox) : bool :=
  PyFloat.eq (west b) (east b) || PyFloat.eq (south b) (north b).

(* ================================================================== *)
(** ** Python ints *)

(** What a Python call can raise in this program: [requests.get] fails with a
    [RequestException] (connection error, timeout), [raise_for_status] with an
    [HTTPError], and [target / page_size] and [math.ceil] with the arithmetic
    errors. *)
Inductive Exn : Type :=
| RequestException (reason : string)
| HTTPError (status : Z)
| ZeroDivisionError
| OverflowError
| ValueError.

Inductive Result (A : Type) : Type :=
| Raise (e : Exn)
| Return (a : A).
Arguments Raise {A} e.
Arguments Return {A} a.

Module PyInt.

(** The builtin [min(a, b)] on ints. *)
Definition py_min (a b : Z) : Z := if (b <? a)%Z then b else a.

(** An int as an (unrounded) binary float [m * 2^0]. *)
Definition Z2SF (z : Z) : spec_float :=
  match z with
  | Z0 => S754_zero false
  | Zpos m => S754_finite false m 0
  | Zneg m => S754_finite true m 0
  end.

(** [a / b] on two ints is true division: the quotient rounded once, to
    nearest even, to binary64.  [SF64div] is the IEEE division of [SpecFloat];
    it divides the integer mantissas and rounds the exact quotient.  The
    quotient is kept decoded (sign, mantissa, exponent), which is the form
    [ceil] below reads.  Division by zero and a quotient too large for a float
    raise. *)
Definition true_div (a b : Z) : Result spec_float :=
  if (b =? 0)%Z then Raise ZeroDivisionError
  else match SF64div (Z2SF a) (Z2SF b) with
       | S754_infinity _ => Raise OverflowError
       | q => Return q
       end.

(** [math.ceil(x)]: the least int not below [x]. *)
Definition ceil (x : spec_float) : Result Z :=
  match x with
  | S754_zero _ => Return 0%Z
  | S754_finite s m e =>
      let v := cond_Zopp s (Zpos m) in
      Return (if (0 <=? e)%Z then v * 2 ^ e else - ((- v) / 2 ^ (- e)))%Z
  | S754_infinity _ => Raise OverflowError
  | S754_nan => Raise ValueError
  end.

(** On decoded floats: [x] is not NaN and carries the sign [s]. *)
Definition has_sign (s : bool) (x : spec_float) : Prop :=
  match x with
  | S754_zero s' | S754_infinity s' | S754_finite s' _ _ => s' = s
  | S754_nan => False
  end.

(** A non-negative mantissa [m] at an exponent [e] within the binary64 range
    whose value [m * 2^e] stays below [2^K]. *)
Definition below (K m e : Z) : Prop :=
  (0 <= m)%Z /\ (e <= 971)%Z /\ (m < 2 ^ (K - e))%Z.

(** [range(n)] as the list of its values. *)
Definition range (n : Z) : list Z := map Z.of_nat (seq 0 (Z.to_nat n)).

(** [len(l)]. *)
Definition len {A : Type} (l : list A) : Z := Z.of_nat (List.length l).

(** The slice [l[:k]]: a negative [k] counts from the end. *)
Definition slice_to {A : Type} (l : list A) (k : Z) : list A :=
  firstn (Z.to_nat (if (k <? 0)%Z then len l + k else k)) l.

End PyInt.

(* ================================================================== *)
(** ** The remote service and the app's state *)

Section Service.

(** A GeoJSON feature: opaque to this code, which only moves features from the
    pages into the result. *)
Variable Feature : Type.

(** The decoded JSON object of a response, as far as the code reads it: the
    value under ["count"] and the list under ["features"], each present or
    not. *)
Record Body : Type := mkBody {
  body_count : option Z;
  body_features : option (list Feature)
}.

(** The two GET requests the app sends, by the parameters that vary.  The
    count query also carries [f=json] and [returnCountOnly=true]; the feature
    query [f=geojson], [returnGeometry=true] and [outSR=4326]; a request with
    a geometry also carries [geometryType=esriGeometryEnvelope], [inSR=4326]
    and [spatialRel=esriSpatialRelIntersects]. *)
Inductive Request : Type :=
| CountQuery (query_url where_ : string) (geometry : option Envelope)
| FeatureQuery (query_url where_ out_fields : string)
    (geometry : option Envelope) (resultRecordCount resultOffset : Z).

(** What comes back: [requests.get] raised (no connection, a timeout; a body
    that [r.json()] cannot decode is counted here too), [raise_for_status]
    raised, or the body decoded by [r.json()]. *)
Inductive Reply : Type :=
| ConnectionFailed (reason : string)
| StatusError (status : Z)
| Json (body : Body).

(** [fetch_features_geojson]'s value. *)
Record FeatureCollection : Type := mkFeatureCollection {
  type_ : string;
  features : list Feature
}.

(** The arguments of [fetch_features_geojson]; [st.cache_data] keys its
    entries on them as they are passed. *)
Record Args : Type := mkArgs {
  layer_url : string;
  where_ : string;
  out_fields : string;
  bbox : option BBox;
  max_features : Z;
  page_size : Z
}.

Record CacheEntry : Type := mkCacheEntry {
  entry_key : Args;
  entry_value : FeatureCollection;
  entry_time : Z
}.

(** The state the code acts on: the exchanges with the remote service so far
    (oldest first) and the entries of the [st.cache_data] store (newest
    first). *)
Record World : Type := mkWorld {
  exchanges : list (Request * Reply);
  cache : list CacheEntry
}.

(** The remote service answers a request knowing the exchanges before it. *)
Definition Remote : Type := list (Request * Reply) -> Request -> Reply.

(** Code that may raise and that acts on the world. *)
Definition M (A : Type) : Type := World -> Result A * World.

Definition ret {A : Type} (a : A) : M A := fun w => (Return a, w).

Definition bind {A B : Type} (m : M A) (k : A -> M B) : M B :=
  fun w => match m w with
           | (Return a, w') => k a w'
           | (Raise e, w') => (Raise e, w')
           end.

(** A pure computation that may raise. *)
Definition lift {A : Type} (r : Result A) : M A := fun w => (r, w).

End Service.

Arguments ConnectionFailed {Feature} reason.
Arguments StatusError {Feature} status.

Notation "x <- m ;; k" := (bind m (fun x => k))
  (at level 61, m at next level, right associativity).

(* ================================================================== *)
(** ** The queries and the paginated fetch (app.py, lines 64-168) *)

Section App.

Variable Feature : Type.

(** The remote service the app talks to. *)
Variable remote : Remote Feature.

(** [_http_get_json(url, params)]: one GET; an error of the transport or of
    the status is raised, otherwise the decoded body is returned.  Either way
    the exchange has taken place. *)
Definition _http_get_json (req : Request) : M Feature (Body Feature) :=
  fun w =>
    let reply := remote (exchanges w) req in
    let w' := mkWorld (exchanges w ++ [(req, reply)]) (cache w) in
    match reply with
    | ConnectionFailed reason => (Raise (RequestException reason), w')
    | StatusError status => (Raise (HTTPError status), w')
    | Json body => (Return body, w')
    end.

(** The [geometry] parameter: the envelope of [bbox.normalized().clamp()]
    when a box is given. *)
Definition geometry_of (bbox : option BBox) : option Envelope :=
  match bbox with
  | Some b => Some (to_envelope (clamp (normalized b)))
  | None => None
  end.

Definition _arcgis_query_geojson (layer_url where_ out_fields : string)
    (bbox : option BBox) (result_record_count result_offset : Z)
  : M Feature (Body Feature) :=
  let query_url := (layer_url ++ "/query")%string in
  _http_get_json
    (FeatureQuery query_url where_ out_fields (geometry_of bbox)
       result_record_count result_offset).

(** [_arcgis_count]: [int(data.get("count", 0))]. *)
Definition _arcgis_count (layer_url where_ : string) (bbox : option BBox)
  : M Feature Z :=
  let query_url := (layer_url ++ "/query")%string in
  data <- _http_get_json (CountQuery query_url where_ (geometry_of bbox)) ;;
  ret (match body_count data with Some c => c | None => 0%Z end).

(** The loop [for i in range(pages)] of [fetch_features_geojson], on the
    indices still to visit and the features accumulated so far. *)
Fixpoint page_loop (a : Args) (target : Z) (indices : list Z)
    (features : list Feature) : M Feature (list Feature) :=
  match indices with
  | [] => ret features
  | i :: rest =>
      let offset := (i * page_size a)%Z in
      let remaining := (target - offset)%Z in
      let rc := PyInt.py_min (page_size a) remaining in
      chunk <- _arcgis_query_geojson (layer_url a) (where_ a) (out_fields a)
                 (bbox a) rc offset ;;
      let chunk_features :=
        match body_features chunk with Some fs => fs | None => [] end in
      let features := features ++ chunk_features in
      if (target <=? PyInt.len features)%Z then ret features
      else page_loop a target rest features
  end.

(** The body of [fetch_features_geojson] (lines 143-168), without its
    [st.cache_data] decorator. *)
Definition fetch_features_geojson (a : Args) : M Feature (FeatureCollection Feature) :=
  total <- _arcgis_count (layer_url a) (where_ a) (bbox a) ;;
  if (total <=? 0)%Z then ret (mkFeatureCollection "FeatureCollection" [])
  else
    let target := PyInt.py_min total (max_features a) in
    quotient <- lift (PyInt.true_div target (page_size a)) ;;
    pages <- lift (PyInt.ceil quotient) ;;
    features <- page_loop a target (PyInt.range pages) [] ;;
    ret (mkFeatureCollection "FeatureCollection" (PyInt.slice_to features target)).

(* ------------------------------------------------------------------ *)
(** *** [st.cache_data(ttl=300)] *)

(** Two calls share a cache entry when their arguments are the same values;
    a float is identified by its binary64 datum. *)
Definition same_float (x y : float) : bool := PrimFloat.Leibniz.eqb x y.

Definition same_bbox (b c : BBox) : bool :=
  same_float (west b) (west c) && same_float (south b) (south c)
  && same_float (east b) (east c) && same_float (north b) (north c).

Definition same_args (a b : Args) : bool :=
  String.eqb (layer_url a) (layer_url b)
  && String.eqb (where_ a) (where_ b)
  && String.eqb (out_fields a) (out_fields b)
  && match bbox a, bbox b with
     | Some x, Some y => same_bbox x y
     | None, None => true
     | _, _ => false
     end
  && Z.eqb (max_features a) (max_features b)
  && Z.eqb (page_size a) (page_size b).

Definition ttl : Z := 300.

(** The newest entry stored under the key, if it is younger than [ttl]
    seconds at time [now]. *)
Definition cache_lookup (now : Z) (key : Args) (entries : list (CacheEntry Feature))
  : option (FeatureCollection Feature) :=
  match find (fun e => same_args (entry_key e) key) entries with
  | Some e => if (now <? entry_time e + ttl)%Z then Some (entry_value e) else None
  | None => None
  end.

(** [fetch_features_geojson] as the app calls it, under
    [@st.cache_data(show_spinner=False, ttl=300)], at clock reading [now]
    (seconds): a live entry is returned without running the body; otherwise
    the body runs, and its value is stored when it returns one.  An exception
    passes through and nothing is stored. *)
Definition cached_fetch_features_geojson (now : Z) (a : Args)
  : M Feature (FeatureCollection Feature) :=
  fun w =>
    match cache_lookup now a (cache w) with
    | Some value => (Return value, w)
    | None =>
        match fetch_features_geojson a w with
        | (Return value, w') =>
            (Return value,
             mkWorld (exchanges w') (mkCacheEntry a value now :: cache w'))
        | (Raise e, w') => (Raise e, w')
        end
    end.

(* ------------------------------------------------------------------ *)
(** *** The guards of [main] (lines 330-354) *)

(** How one run of [main] ends once the map state is known. *)
Inductive Outcome : Type :=
| ZoomInToLoad           (* line 331: [st.info], [st.stop] *)
| ViewVeryLarge          (* line 335: [st.warning], [st.stop] *)
| QueryFailed (status : Z)       (* line 350: [except requests.HTTPError] *)
| NetworkError (reason : string) (* line 353: [except requests.RequestException] *)
| Uncaught (e : Exn)
| Loaded (geojson : FeatureCollection Feature).

(** The [try ... except] around the call (lines 341-354): the two
    [requests] exceptions are reported and the run stops; anything else is
    not caught. *)
Definition report (r : Result (FeatureCollection Feature) * World Feature)
  : Outcome * World Feature :=
  match r with
  | (Return geojson, w') => (Loaded geojson, w')
  | (Raise (HTTPError status), w') => (QueryFailed status, w')
  | (Raise (RequestException reason), w') => (NetworkError reason, w')
  | (Raise e, w') => (Uncaught e, w')
  end.

(** [main] from line 330 to line 354; [page_size] is left to its default. *)
Definition main_load (now current_zoom min_zoom : Z) (bbox : option BBox)
    (layer_url where_ out_fields : string) (max_features : Z)
  : World Feature -> Outcome * World Feature :=
  fun w =>
    if (current_zoom <? min_zoom)%Z then (ZoomInToLoad, w)
    else if match bbox with
            | Some b => PyFloat.gt (approx_area_deg2 b) 2%float
            | None => false
            end
    then (ViewVeryLarge, w)
    else
      report
        (cached_fetch_features_geojson now
           (mkArgs layer_url where_ out_fields bbox max_features 1000) w).

End App.

(* ================================================================== *)
(** ** Vocabulary for the statements about a fetch *)

Section Vocabulary.

Variable Feature : Type.

(** The exception a reply makes [_http_get_json] raise, if any. *)
Definition failure (r : Reply Feature) : option Exn :=
  match r with
  | ConnectionFailed reason => Some (RequestException reason)
  | StatusError status => Some (HTTPError status)
  | Json _ => None
  end.

(** The count a decoded body yields: [data.get("count", 0)]. *)
Definition count_of (data : Body Feature) : Z :=
  match body_count data with Some c => c | None => 0%Z end.

(** The features an exchange delivered: [chunk.get("features", [])]. *)
Definition page_features (x : Request * Reply Feature) : list Feature :=
  match snd x with
  | Json {| body_features := Some fs |} => fs
  | _ => []
  end.

(** All the features a run of exchanges delivered, in order. *)
Definition fetched (xs : list (Request * Reply Feature)) : list Feature :=
  List.concat (map page_features xs).

(** The count read from the reply to a count request; 0 when the request
    failed. *)
Definition count_of_reply (r : Reply Feature) : Z :=
  match r with
  | Json body => count_of body
  | _ => 0%Z
  end.

(** The count request and the request of page [i] of a call. *)
Definition count_request (a : Args) : Request :=
  CountQuery (layer_url a ++ "/query")%string (where_ a) (geometry_of (bbox a)).

Definition page_request (a : Args) (target i : Z) : Request :=
  FeatureQuery (layer_url a ++ "/query")%string (where_ a) (out_fields a)
    (geometry_of (bbox a))
    (PyInt.py_min (page_size a) (target - i * page_size a)) (i * page_size a).

Definition is_count_query (x : Request * Reply Feature) : bool :=
  match fst x with CountQuery _ _ _ => true | _ => false end.

(** The envelope a request carries, if any. *)
Definition request_geometry (q : Request) : option Envelope :=
  match q with
  | CountQuery _ _ g => g
  | FeatureQuery _ _ _ g _ _ => g
  end.


(** Every stored value respects the cap of the call that stored it. *)
Definition cache_capped (entries : list (CacheEntry Feature)) : Prop :=
  Forall (fun e => (0 <= max_features (entry_key e))%Z ->
                   (PyInt.len (features (entry_value e))
                    <= max_features (entry_key e))%Z) entries.

Definition empty_collection : FeatureCollection Feature :=
  mkFeatureCollection "FeatureCollection" [].

End Vocabulary.

(* ================================================================== *)
(** ** Sample services *)

(** The features numbered [off] to [off + n - 1]. *)
Definition numbered (off n : Z) : list Z :=
  map (fun i => (off + i)%Z) (PyInt.range n).

(** A layer of [total] features, numbered from 0, behind a server that
    delivers at most [cap] features per page. *)
Definition sample_remote (total cap : Z) : Remote Z :=
  fun _ req =>
    match req with
    | CountQuery _ _ _ => Json (mkBody (Some total) None)
    | FeatureQuery _ _ _ _ rc off =>
        Json (mkBody None (Some (numbered off (Z.min rc (Z.min cap (total - off))))))
    end.

(** The same layer behind a server that answers its [k]-th request (counted
    from 0) with status 500. *)
Definition flaky_remote (total cap : Z) (k : nat) : Remote Z :=
  fun history req =>
    if Nat.eqb (List.length history) k then StatusError 500
    else sample_remote total cap history req.

(** A server that ignores [resultRecordCount]: every page carries up to [cap]
    features from the offset on, whatever was asked for. *)
Definition sample_remote_ignoring_count (total cap : Z) : Remote Z :=
  fun _ req =>
    match req with
    | CountQuery _ _ _ => Json (mkBody (Some total) None)
    | FeatureQuery _ _ _ _ rc off =>
        Json (mkBody None (Some (numbered off (Z.min cap (total - off)))))
    end.

Definition empty_world : World Z := mkWorld [] [].

Definition sample_args (bbox : option BBox) (max_features page_size : Z) : Args :=
  mkArgs "https://example.org/FeatureServer/0" "COUNTY_NAME = 'Schenectady'"
    "PARCEL_ADDR,SBL" bbox max_features page_size.

(* ================================================================== *)
(** ** Strings of [main]: the field list and the WHERE clause
       (app.py, lines 308-315 and 338) *)

(** A Python [str] is kept as the bytes of its UTF-8 encoding.  Comparing two
    strings byte by byte orders them as Python does, code point by code
    point; and a quote or a comma is one byte that occurs in the encoding of
    no other character. *)

From Stdlib Require Sorted.

Module PyStr.

(** [a < b] on two strings. *)
Definition lt (a b : string) : bool :=
  match String.compare a b with Lt => true | _ => false end.

(** [sorted(set(l))]: the distinct elements of [l] in increasing order,
    built by inserting each element at its place unless it is there. *)
Fixpoint insert (x : string) (l : list string) : list string :=
  match l with
  | [] => [x]
  | y :: l' =>
      match String.compare x y with
      | Lt => x :: l
      | Eq => l
      | Gt => y :: insert x l'
      end
  end.

Definition sorted_set (l : list string) : list string :=
  fold_right insert [] l.

(** [sep.join(parts)]. *)
Definition join (sep : string) (parts : list string) : string :=
  String.concat sep parts.

(** The quote character ['], code 39. *)
Definition quote : Ascii.ascii :=
  Ascii.Ascii true true true false false true false false.

(** [s.replace("'", "''")]. *)
Fixpoint escape_quotes (s : string) : string :=
  match s with
  | EmptyString => EmptyString
  | String c s' =>
      if Ascii.eqb c quote
      then String quote (String quote (escape_quotes s'))
      else String c (escape_quotes s')
  end.

(** Strictly increasing: every element is below all the later ones. *)
Definition increasing (l : list string) : Prop :=
  Sorted.StronglySorted (fun a b => String.compare a b = Lt) l.

(** [bool(s)]: a string is true unless empty. *)
Definition truthy (s : string) : bool :=
  match s with EmptyString => false | _ => true end.

(** Whether a string begins with a quote. *)
Definition starts_with_quote (s : string) : bool :=
  match s with
  | String c _ => Ascii.eqb c quote
  | EmptyString => false
  end.

End PyStr.

(** Line 338: [",".join(sorted(set(popup_fields + [...])))]. *)
Definition required_fields : list string :=
  ["PARCEL_ADDR"; "PRIMARY_OWNER"; "SBL"; "PRINT_KEY"]%string.

Definition out_fields_of (popup_fields : list string) : string :=
  PyStr.join "," (PyStr.sorted_set (popup_fields ++ required_fields)).

Section Where.

(** [str.upper], a builtin: its case tables are not part of this file. *)
Variable upper : string -> string.

(** Lines 308-315, from the stripped inputs of the three text fields. *)
Definition build_where (county_name owner_search addr_search : string) : string :=
  let where_parts :=
    [("COUNTY_NAME = '" ++ PyStr.escape_quotes county_name ++ "'")%string] in
  let where_parts :=
    if PyStr.truthy owner_search
    then
      let s := upper (PyStr.escape_quotes owner_search) in
      where_parts ++ [("UPPER(PRIMARY_OWNER) LIKE '%" ++ s ++ "%'")%string]
    else where_parts in
  let where_parts :=
    if PyStr.truthy addr_search
    then
      let s := upper (PyStr.escape_quotes addr_search) in
      where_parts ++ [("UPPER(PARCEL_ADDR) LIKE '%" ++ s ++ "%'")%string]
    else where_parts in
  PyStr.join " AND " where_parts.

End Where.

(** How SQL reads the body of a string literal, from just after its opening
    quote: two quotes stand for one, a single quote ends the literal.  The
    result is the text of the literal and what follows it; [None] when the
    literal is never closed. *)
Fixpoint read_sql_literal (s : string) : option (string * string) :=
  match s with
  | EmptyString => None
  | String c s' =>
      if Ascii.eqb c PyStr.quote
      then match s' with
           | String c' s'' =>
               if Ascii.eqb c' PyStr.quote
               then match read_sql_literal s'' with
                    | Some (text, rest) => Some (String PyStr.quote text, rest)
                    | None => None
                    end
               else Some (EmptyString, s')
           | EmptyString => Some (EmptyString, EmptyString)
           end
      else match read_sql_literal s' with
           | Some (text, rest) => Some (String c text, rest)
           | None => None
           end
  end.

(** Upper-casing of the ASCII letters, the part of [str.upper] that the
    examples need. *)
Definition ascii_upper (c : Ascii.ascii) : Ascii.ascii :=
  let n := Ascii.N_of_ascii c in
  if ((97 <=? n) && (n <=? 122))%N then Ascii.ascii_of_N (n - 32) else c.

Fixpoint str_ascii_upper (s : string) : string :=
  match s with
  | EmptyString => EmptyString
  | String c s' => String (ascii_upper c) (str_ascii_upper s')
  end.

(* ================================================================== *)
(** ** The map state (app.py, lines 217-225 and 318-319) *)

Module MapState.

(** A JSON number as Python decodes it: an [int] or a [float]. *)
Inductive Num : Type :=
| NInt (z : Z)
| NFloat (x : float).

(** The state [st_folium] returns is a dict; what the code reads of it are
    the values under ["zoom"] and ["bounds"].  A dict is kept as the list of
    its items.  A corner maps ["lat"] and ["lng"] to a number or to null;
    the bounds map ["_southWest"] and ["_northEast"] to a corner or to null;
    a value of the state is null, a number or a dict of corners. *)
Definition Corner : Type := list (string * option Num).

Definition Bounds : Type := list (string * option Corner).

Inductive Value : Type :=
| VNull
| VNum (n : Num)
| VBounds (b : Bounds).

Definition State : Type := list (string * Value).

(** What reading the state can raise. *)
Inductive Error : Type :=
| KeyError (key : string)
| TypeError
| AttributeError
| Arithmetic (e : Exn).

(** [d.get(k)]: the value of the first item with that key. *)
Fixpoint get {V : Type} (d : list (string * V)) (k : string) : option V :=
  match d with
  | [] => None
  | (k', v) :: d' => if String.eqb k' k then Some v else get d' k
  end.

(** [bool(n)]: a number is true unless it equals zero. *)
Definition truthy_num (n : Num) : bool :=
  match n with
  | NInt z => negb (z =? 0)%Z
  | NFloat x => negb (PrimFloat.eqb x 0%float)
  end.

(** [float(n)]: an int is rounded to the nearest float, ties to even, and is
    refused when it is too large. *)
Definition to_float (n : Num) : Error + float :=
  match n with
  | NFloat x => inr x
  | NInt z =>
      match binary_normalize prec emax z 0 false with
      | S754_infinity _ => inl (Arithmetic OverflowError)
      | x => inr (SF2Prim x)
      end
  end.

(** [int(n)]: a float is truncated towards zero; NaN and the infinities are
    refused. *)
Definition to_int (n : Num) : Error + Z :=
  match n with
  | NInt z => inr z
  | NFloat x =>
      match Prim2SF x with
      | S754_zero _ => inr 0%Z
      | S754_finite s m e =>
          inr (cond_Zopp s
                 (if (0 <=? e)%Z then Z.pos m * 2 ^ e else Z.pos m / 2 ^ (- e)))%Z
      | S754_infinity _ => inl (Arithmetic OverflowError)
      | S754_nan => inl (Arithmetic ValueError)
      end
  end.

(** [float(corner[key])]. *)
Definition coordinate (corner : Corner) (key : string) : Error + float :=
  match get corner key with
  | None => inl (KeyError key)
  | Some None => inl TypeError
  | Some (Some n) => to_float n
  end.

(** A corner that is there: [bounds.get(key)] is a dict with an item. *)
Definition corner_of (bounds : Bounds) (key : string) : option Corner :=
  match get bounds key with
  | Some (Some (item :: items)) => Some (item :: items)
  | _ => None
  end.

(** [bbox_from_folium_state(state)], lines 217-225. *)
Definition bbox_from_folium_state (state : option State) : Error + option BBox :=
  let bounds :=
    match state with
    | Some (item :: items) =>
        match get (item :: items) "bounds" with
        | Some v => v
        | None => VNull
        end
    | _ => VNull
    end in
  match bounds with
  | VNull => inr None
  | VNum n => if truthy_num n then inl AttributeError else inr None
  | VBounds [] => inr None
  | VBounds b =>
      match corner_of b "_southWest", corner_of b "_northEast" with
      | Some sw, Some ne =>
          match coordinate sw "lng" with
          | inl e => inl e
          | inr west =>
              match coordinate sw "lat" with
              | inl e => inl e
              | inr south =>
                  match coordinate ne "lng" with
                  | inl e => inl e
                  | inr east =>
                      match coordinate ne "lat" with
                      | inl e => inl e
                      | inr north => inr (Some (mkBBox west south east north))
                      end
                  end
              end
          end
      | _, _ => inr None
      end
  end.

(** Line 298: the zoom the map starts with. *)
Definition zoom : Z := 12.

(** Line 318: [int(map_state.get("zoom", zoom)) if map_state else zoom]. *)
Definition current_zoom_of (map_state : option State) : Error + Z :=
  match map_state with
  | Some (item :: items) =>
      match get (item :: items) "zoom" with
      | None => inr zoom
      | Some (VNum n) => to_int n
      | Some _ => inl TypeError
      end
  | _ => inr zoom
  end.






End MapState.

(* ================================================================== *)
(** ** The popup of a point (app.py, lines 188-205) *)

Module Popup.

(** An attribute value: null, a string, or anything else JSON can hold (a
    number, a boolean, a list, a dict), kept as what [str()] gives for it and
    whether it counts as true. *)
Inductive Attr : Type :=
| ANone
| AStr (s : string)
| AOther (text : string) (truth : bool).

Definition Props : Type := list (string * Attr).

(** [props.get(f)]: a missing key reads as None. *)
Definition get (props : Props) (f : string) : Attr :=
  match MapState.get props f with
  | Some v => v
  | None => ANone
  end.

(** [str(v)] and [bool(v)]. *)
Definition str (v : Attr) : string :=
  match v with
  | ANone => "None"
  | AStr s => s
  | AOther text _ => text
  end.

Definition truthy (v : Attr) : bool :=
  match v with
  | ANone => false
  | AStr s => PyStr.truthy s
  | AOther _ truth => truth
  end.

(** [feature.get("properties", {}) or {}]: the key may be missing and its
    value may be null. *)
Definition props_of (properties : option (option Props)) : Props :=
  match properties with
  | Some (Some props) => props
  | _ => []
  end.

(** [v is None or v == ""]. *)
Definition blank (v : Attr) : bool :=
  match v with
  | ANone => true
  | AStr EmptyString => true
  | _ => false
  end.

(** The loop of lines 191-195. *)
Fixpoint popup_lines (props : Props) (popup_fields : list string) : list string :=
  match popup_fields with
  | [] => []
  | f :: fields =>
      let v := get props f in
      if blank v then popup_lines props fields
      else ("<b>" ++ f ++ "</b>: " ++ str v)%string :: popup_lines props fields
  end.

(** Line 196. *)
Definition popup_html (props : Props) (popup_fields : list string) : string :=
  match popup_lines props popup_fields with
  | [] => "No attributes"%string
  | lines => PyStr.join "<br/>" lines
  end.

(** [x or y]. *)
Definition or_else (x y : Attr) : Attr := if truthy x then x else y.

(** Line 204: the tooltip. *)
Definition tooltip (props : Props) : string :=
  str (or_else (get props "PARCEL_ADDR")
         (or_else (get props "PRINT_KEY")
            (or_else (get props "SBL") (AStr "Parcel")))).

End Popup.

(* ================================================================== *)
(** ** One run of [main] (app.py, lines 240-361) *)

Inductive Mode : Type :=
| CentroidPoints      (* "Centroid points (public)" *)
| ParcelPolygons.     (* "Parcel polygons (your service URL)" *)

Definition DEFAULT_POINTS_LAYER_URL : string :=
  "https://gisservices.its.ny.gov/arcgis/rest/services/NYS_Tax_Parcel_Centroid_Points/FeatureServer/0".

(** The values of the sidebar widgets; the text inputs are stripped. *)
Record Sidebar : Type := mkSidebar {
  mode : Mode;
  url_input : string;
  county_name : string;
  owner_search : string;
  addr_search : string;
  max_features_slider : Z;
  min_zoom : Z;
  popup_fields : list string
}.

(** Lines 246-254. *)
Definition layer_url_of (ui : Sidebar) : string :=
  match mode ui with
  | CentroidPoints => DEFAULT_POINTS_LAYER_URL
  | ParcelPolygons => url_input ui
  end.

(** The url and the filter a request carries. *)
Definition request_url (q : Request) : string :=
  match q with
  | CountQuery url _ _ => url
  | FeatureQuery url _ _ _ _ _ => url
  end.

Definition request_where (q : Request) : string :=
  match q with
  | CountQuery _ where_ _ => where_
  | FeatureQuery _ where_ _ _ _ _ => where_
  end.

Section Run.

Variable Feature : Type.
Variable remote : Remote Feature.
Variable upper : string -> string.

(** How a run of [main] ends. *)
Inductive Ending : Type :=
| NeedLayerUrl                        (* line 293: [st.warning], [st.stop] *)
| StateError (e : MapState.Error)     (* lines 318-319 raised *)
| Stopped (o : Outcome Feature)       (* a stop of lines 330-354 *)
| NoFeaturesFound                     (* line 360: [st.info], [st.stop] *)
| Rendered (geojson : FeatureCollection Feature).  (* line 363 is reached *)

(** [main] from the sidebar values and the state of the first map to the
    point where the data map is drawn. *)
Definition main_run (now : Z) (ui : Sidebar) (map_state : option MapState.State)
  : World Feature -> Ending * World Feature :=
  fun w =>
    let layer_url := layer_url_of ui in
    if match mode ui with
       | CentroidPoints => false
       | ParcelPolygons => negb (PyStr.truthy layer_url)
       end
    then (NeedLayerUrl, w)
    else
      let where_ :=
        build_where upper (county_name ui) (owner_search ui) (addr_search ui) in
      match MapState.current_zoom_of map_state with
      | inl e => (StateError e, w)
      | inr current_zoom =>
          match MapState.bbox_from_folium_state map_state with
          | inl e => (StateError e, w)
          | inr bbox =>
              match main_load remote now current_zoom (min_zoom ui) bbox
                      layer_url where_ (out_fields_of (popup_fields ui))
                      (max_features_slider ui) w with
              | (Loaded geojson, w') =>
                  match features geojson with
                  | [] => (NoFeaturesFound, w')
                  | _ :: _ => (Rendered geojson, w')
                  end
              | (o, w') => (Stopped o, w')
              end
          end
      end.

End Run.

Arguments NeedLayerUrl {Feature}.
Arguments StateError {Feature} e.
Arguments NoFeaturesFound {Feature}.

(** A map state as reported after a pan to Schenectady at zoom 15. *)
Definition sample_state : MapState.State :=
  [("zoom", MapState.VNum (MapState.NInt 15));
   ("bounds",
    MapState.VBounds
      [("_southWest",
        Some [("lat", Some (MapState.NFloat 42.75));
              ("lng", Some (MapState.NInt (-74)))]);
       ("_northEast",
        Some [("lat", Some (MapState.NFloat 43));
              ("lng", Some (MapState.NFloat (-73.75)))])])]%string.

Definition sample_sidebar : Sidebar :=
  mkSidebar CentroidPoints "" "Schenectady" "" "" 2000 13
    ["PARCEL_ADDR"; "PRIMARY_OWNER"; "MAIL_ADDR"; "MAIL_CITY"; "MAIL_STATE";
     "MAIL_ZIP"; "SBL"]%string.

(* ================================================================== *)
(** ** Order theory of binary64 comparisons *)

Module SFOrder.
Import PyFloat.

Ltac sf_split x := destruct x as [[|]|[|]| |[|] ? ?].

Ltac sf_cmp :=
  unfold SFltb, SFleb, SFeqb, SFcompare in *;
  repeat match goal with
  | |- context [Z.compare ?a ?b] => destruct (Z.compare_spec a b)
  | H : context [Z.compare ?a ?b] |- _ => destruct (Z.compare_spec a b)
  end;
  repeat match goal with
  | |- context [Pos.compare_cont Eq ?a ?b] =>
      change (Pos.compare_cont Eq a b) with (Pos.compare a b);
      destruct (Pos.compare_spec a b)
  | H : context [Pos.compare_cont Eq ?a ?b] |- _ =>
      change (Pos.compare_cont Eq a b) with (Pos.compare a b) in H;
      destruct (Pos.compare_spec a b)
  end;
  simpl in *; try congruence; try lia.

Lemma SFltb_leb x y : SFltb x y = true -> SFleb x y = true.
Proof. sf_split x; sf_split y; sf_cmp. Qed.

Lemma SFleb_total x y :
  SFeqb x x = true -> SFeqb y y = true -> SFltb y x = false -> SFleb x y = true.
Proof. sf_split x; sf_split y; sf_cmp. Qed.

Lemma SFleb_trans x y z :
  SFleb x y = true -> SFleb y z = true -> SFleb x z = true.
Proof. sf_split x; sf_split y; sf_split z; sf_cmp. Qed.

Lemma SFleb_refl x : SFeqb x x = true -> SFleb x x = true.
Proof. sf_split x; sf_cmp. Qed.

Lemma SFleb_number_l x y : SFleb x y = true -> SFeqb x x = true.
Proof. sf_split x; sf_split y; sf_cmp. Qed.

Lemma SFleb_number_r x y : SFleb x y = true -> SFeqb y y = true.
Proof. sf_split x; sf_split y; sf_cmp. Qed.

Lemma SFltb_number_l x y : SFltb x y = true -> SFeqb x x = true.
Proof. sf_split x; sf_split y; sf_cmp. Qed.

Lemma SFltb_number_r x y : SFltb x y = true -> SFeqb y y = true.
Proof. sf_split x; sf_split y; sf_cmp. Qed.

Lemma SFeqb_leb x y : SFeqb x y = true -> SFleb x y = true.
Proof. sf_split x; sf_split y; sf_cmp. Qed.

Lemma SFeqb_sym x y : SFeqb x y = true -> SFeqb y x = true.
Proof. sf_split x; sf_split y; sf_cmp. Qed.

Lemma SFleb_antisym x y : SFleb x y = true -> SFleb y x = true -> SFeqb x y = true.
Proof. sf_split x; sf_split y; sf_cmp. Qed.

Lemma SFleb_between_finite lo hi x :
  SFfinite lo = true -> SFfinite hi = true ->
  SFleb lo x = true -> SFleb x hi = true -> SFfinite x = true.
Proof. sf_split lo; sf_split hi; sf_split x; sf_cmp. Qed.

(** Equal finite floats have a zero difference. *)
Lemma SFsub_eq_zero x y :
  SFfinite x = true -> SFfinite y = true -> SFeqb x y = true ->
  SFzero_or_nan (SF64sub x y) = true.
Proof.
  destruct x as [sx|sx| |sx mx ex], y as [sy|sy| |sy my ey];
    try discriminate; intros _ _ H.
  - destruct sx, sy; reflexivity.
  - destruct sy; discriminate.
  - destruct sx; discriminate.
  - assert (E : sx = sy /\ mx = my /\ ex = ey)
      by (destruct sx, sy; sf_cmp; subst; auto).
    destruct E as (-> & -> & ->).
    unfold SF64sub, SFsub. cbv zeta. rewrite Z.sub_diag. reflexivity.
Qed.

Lemma SFmul_zero_l x y :
  SFzero_or_nan x = true -> SFzero_or_nan (SF64mul x y) = true.
Proof. unfold SF64mul, SFmul. sf_split x; sf_split y; simpl; congruence. Qed.

Lemma SFmul_zero_r x y :
  SFzero_or_nan y = true -> SFzero_or_nan (SF64mul x y) = true.
Proof. unfold SF64mul, SFmul. sf_split x; sf_split y; simpl; congruence. Qed.

Lemma SFltb_zero_or_nan s x :
  SFzero_or_nan x = true -> SFltb (S754_zero s) x = false.
Proof. sf_split x; intros H; try discriminate H; reflexivity. Qed.

End SFOrder.


(* ================================================================== *)
(** ** Python comparisons, [min], [max] and [sorted] on floats *)

Module PyFloatFacts.
Import PyFloat.

Ltac to_spec :=
  unfold is_number, lt, gt, le, ge, eq in *;
  rewrite ?ltb_spec, ?leb_spec, ?eqb_spec in *.

Lemma lt_le x y : lt x y = true -> le x y = true.
Proof. to_spec. apply SFOrder.SFltb_leb. Qed.

Lemma le_total x y :
  is_number x = true -> is_number y = true -> lt y x = false -> le x y = true.
Proof. to_spec. apply SFOrder.SFleb_total. Qed.

Lemma le_trans x y z : le x y = true -> le y z = true -> le x z = true.
Proof. to_spec. apply SFOrder.SFleb_trans. Qed.

Lemma le_refl x : is_number x = true -> le x x = true.
Proof. to_spec. apply SFOrder.SFleb_refl. Qed.

Lemma le_number_l x y : le x y = true -> is_number x = true.
Proof. to_spec. apply SFOrder.SFleb_number_l. Qed.

Lemma le_number_r x y : le x y = true -> is_number y = true.
Proof. to_spec. apply SFOrder.SFleb_number_r. Qed.

Lemma lt_number_l x y : lt x y = true -> is_number x = true.
Proof. to_spec. apply SFOrder.SFltb_number_l. Qed.

Lemma lt_number_r x y : lt x y = true -> is_number y = true.
Proof. to_spec. apply SFOrder.SFltb_number_r. Qed.

Lemma eq_le x y : eq x y = true -> le x y = true.
Proof. to_spec. apply SFOrder.SFeqb_leb. Qed.

Lemma eq_sym x y : eq x y = true -> eq y x = true.
Proof. to_spec. apply SFOrder.SFeqb_sym. Qed.

Lemma le_antisym x y : le x y = true -> le y x = true -> eq x y = true.
Proof. to_spec. apply SFOrder.SFleb_antisym. Qed.

Create HintDb pyfloat.
#[local] Hint Resolve lt_le le_total le_trans le_refl le_number_l
  le_number_r lt_number_l lt_number_r eq_le eq_sym : pyfloat.

(** [sorted2] returns its two arguments, swapped exactly when the second is
    strictly smaller. *)
Lemma sorted2_ordered a b :
  is_number a = true -> is_number b = true ->
  le (fst (sorted2 a b)) (snd (sorted2 a b)) = true.
Proof.
  intros Ha Hb. unfold sorted2. destruct (lt b a) eqn:E; simpl;
    auto with pyfloat.
Qed.

Lemma py_min_mono c x y :
  is_number c = true -> le x y = true ->
  le (py_min c x) (py_min c y) = true.
Proof.
  intros Hc Hxy. unfold py_min.
  destruct (lt x c) eqn:Ex, (lt y c) eqn:Ey; eauto with pyfloat.
Qed.

Lemma py_max_mono c x y :
  is_number c = true -> le x y = true ->
  le (py_max c x) (py_max c y) = true.
Proof.
  intros Hc Hxy. unfold py_max, gt.
  destruct (lt c x) eqn:Ex, (lt c y) eqn:Ey; eauto 6 with pyfloat.
Qed.

Lemma clamp1_mono lo hi x y :
  is_number lo = true -> is_number hi = true -> le x y = true ->
  le (clamp1 lo hi x) (clamp1 lo hi y) = true.
Proof.
  intros. unfold clamp1. apply py_max_mono; auto. apply py_min_mono; auto.
Qed.

(** Clamping lands in the interval whatever the input, NaN included:
    [min(hi, nan)] is [hi]. *)
Lemma clamp1_bounds lo hi x :
  le lo hi = true ->
  le lo (clamp1 lo hi x) = true /\ le (clamp1 lo hi x) hi = true.
Proof.
  intros Hlh. unfold clamp1, py_max, py_min, gt.
  assert (Hm : le (if lt x hi then x else hi) hi = true)
    by (destruct (lt x hi) eqn:E; eauto with pyfloat).
  destruct (lt lo (if lt x hi then x else hi)) eqn:E; eauto with pyfloat.
Qed.

Lemma clamp1_eq lo hi x y :
  is_number lo = true -> is_number hi = true -> eq x y = true ->
  eq (clamp1 lo hi x) (clamp1 lo hi y) = true.
Proof.
  intros Hl Hh E. apply le_antisym; apply clamp1_mono; auto with pyfloat.
Qed.

Lemma sorted2_eq a b :
  eq a b = true -> eq (fst (sorted2 a b)) (snd (sorted2 a b)) = true.
Proof.
  intros E. unfold sorted2. destruct (lt b a); simpl; auto with pyfloat.
Qed.

(** Two equal floats between finite bounds cancel: their difference is a
    zero (or, by the shape of the specification alone, NaN). *)
Lemma sub_eq_zero lo hi x y :
  SFfinite (Prim2SF lo) = true -> SFfinite (Prim2SF hi) = true ->
  le lo x = true -> le x hi = true -> le lo y = true -> le y hi = true ->
  eq x y = true ->
  SFzero_or_nan (Prim2SF (y - x)) = true.
Proof.
  intros Flo Fhi H1 H2 H3 H4 E. rewrite sub_spec.
  apply eq_sym in E. to_spec.
  apply SFOrder.SFsub_eq_zero; auto;
    apply SFOrder.SFleb_between_finite with (Prim2SF lo) (Prim2SF hi); auto.
Qed.

Lemma py_max_zero z :
  SFzero_or_nan (Prim2SF z) = true -> py_max 0%float z = 0%float.
Proof.
  intros H. unfold py_max, gt, lt. rewrite ltb_spec.
  change (Prim2SF 0) with (S754_zero false).
  rewrite SFOrder.SFltb_zero_or_nan; auto.
Qed.

Lemma py_max_zero_nonneg z : le 0%float (py_max 0%float z) = true.
Proof.
  unfold py_max, gt. destruct (lt 0%float z) eqn:E; auto with pyfloat.
Qed.

End PyFloatFacts.


(* ================================================================== *)
(** ** BBox: normalisation, clamping, area *)

Module BBoxFacts.
Import PyFloat PyFloatFacts.

Lemma clamp_coordinates b :
  clamp b = mkBBox (clamp1 (-180) 180 (west b)) (clamp1 (-90) 90 (south b))
                   (clamp1 (-180) 180 (east b)) (clamp1 (-90) 90 (north b)).
Proof. reflexivity. Qed.

Lemma normalized_coordinates b :
  normalized b =
  mkBBox (fst (sorted2 (west b) (east b))) (fst (sorted2 (south b) (north b)))
         (snd (sorted2 (west b) (east b))) (snd (sorted2 (south b) (north b))).
Proof.
  unfold normalized.
  destruct (sorted2 (west b) (east b)), (sorted2 (south b) (north b)).
  reflexivity.
Qed.

Lemma numeric_inv b :
  numeric b = true ->
  is_number (west b) = true /\ is_number (south b) = true /\
  is_number (east b) = true /\ is_number (north b) = true.
Proof.
  unfold numeric. rewrite !andb_true_iff. tauto.
Qed.

Lemma ordered_inv b :
  ordered b = true <->
  le (west b) (east b) = true /\ le (south b) (north b) = true.
Proof. unfold ordered. now rewrite andb_true_iff. Qed.

Lemma normalized_is_ordered b : numeric b = true -> ordered (normalized b) = true.
Proof.
  intros H. apply numeric_inv in H. destruct H as (Hw & Hs & He & Hn).
  rewrite normalized_coordinates. apply ordered_inv. simpl.
  split; apply sorted2_ordered; assumption.
Qed.

(** West and east change places exactly when [west > east]; likewise south
    and north. *)
Lemma normalized_swaps b :
  (west (normalized b), east (normalized b)) =
    (if gt (west b) (east b) then (east b, west b) else (west b, east b))
  /\ (south (normalized b), north (normalized b)) =
    (if gt (south b) (north b) then (north b, south b) else (south b, north b)).
Proof.
  rewrite normalized_coordinates. unfold sorted2, gt. simpl.
  destruct (lt (east b) (west b)), (lt (north b) (south b)); auto.
Qed.

Lemma clamp_is_ordered b : ordered b = true -> ordered (clamp b) = true.
Proof.
  rewrite !ordered_inv, clamp_coordinates. simpl.
  intros [Hx Hy]. split; apply clamp1_mono; auto.
Qed.

Lemma clamp_in_range b : in_range (clamp b) = true.
Proof.
  rewrite clamp_coordinates. unfold in_range. simpl.
  destruct (@clamp1_bounds (-180) 180 (west b) eq_refl) as [-> ->].
  destruct (@clamp1_bounds (-180) 180 (east b) eq_refl) as [-> ->].
  destruct (@clamp1_bounds (-90) 90 (south b) eq_refl) as [-> ->].
  destruct (@clamp1_bounds (-90) 90 (north b) eq_refl) as [-> ->].
  reflexivity.
Qed.

Lemma degenerate_normalized b :
  degenerate b = true -> degenerate (normalized b) = true.
Proof.
  unfold degenerate. rewrite !orb_true_iff, normalized_coordinates. simpl.
  intros [H|H]; [left|right]; apply sorted2_eq; assumption.
Qed.

Lemma degenerate_clamp b : degenerate b = true -> degenerate (clamp b) = true.
Proof.
  unfold degenerate. rewrite !orb_true_iff, clamp_coordinates. simpl.
  intros [H|H]; [left|right]; apply clamp1_eq; auto.
Qed.

Lemma area_of_degenerate_view b :
  degenerate (clamp (normalized b)) = true -> approx_area_deg2 b = 0%float.
Proof.
  unfold approx_area_deg2. cbv zeta. set (c := normalized b).
  rewrite clamp_coordinates. unfold degenerate. simpl.
  rewrite orb_true_iff. intros H.
  apply py_max_zero. rewrite mul_spec.
  destruct H as [H|H].
  - apply SFOrder.SFmul_zero_l.
    apply sub_eq_zero with (lo := (-180)%float) (hi := 180%float);
      auto; apply clamp1_bounds; reflexivity.
  - apply SFOrder.SFmul_zero_r.
    apply sub_eq_zero with (lo := (-90)%float) (hi := 90%float);
      auto; apply clamp1_bounds; reflexivity.
Qed.

(** C8: [approx_area_deg2] is [max(0.0, (east - west) * (north - south))]
    taken on [self.normalized().clamp()]; the result is never negative (and
    never NaN), and it is [0.0] for a box of zero width or zero height,
    whether the box is degenerate as given or becomes so once normalised and
    clamped. *)
Theorem approx_area_deg2_spec (b : BBox) :
  let v := clamp (normalized b) in
  approx_area_deg2 b
    = py_max 0%float ((east v - west v) * (north v - south v))%float
  /\ le 0%float (approx_area_deg2 b) = true
  /\ lt (approx_area_deg2 b) 0%float = false
  /\ (degenerate b = true -> approx_area_deg2 b = 0%float)
  /\ (degenerate v = true -> approx_area_deg2 b = 0%float).
Proof.
  cbv zeta. split; [reflexivity|]. split; [apply py_max_zero_nonneg|].
  split; [|split].
  - unfold approx_area_deg2. cbv zeta.
    match goal with |- lt (py_max _ ?z) _ = _ => generalize z end.
    intros z. unfold py_max, gt. destruct (lt 0%float z) eqn:E; [|reflexivity].
    destruct (lt z 0%float) eqn:E'; [|reflexivity].
    exfalso. revert E E'. unfold lt. rewrite !ltb_spec.
    change (Prim2SF 0) with (S754_zero false).
    generalize (Prim2SF z). intros x. SFOrder.sf_split x; SFOrder.sf_cmp.
  - intros H. apply area_of_degenerate_view.
    apply degenerate_clamp, degenerate_normalized, H.
  - apply area_of_degenerate_view.
Qed.

(** C8, at a concrete box: a view of zero width. *)
Lemma approx_area_deg2_spec_witness :
  degenerate (mkBBox (-73.5) 42.5 (-73.5) 43) = true
  /\ approx_area_deg2 (mkBBox (-73.5) 42.5 (-73.5) 43) = 0%float.
Proof.
  split; [reflexivity|].
  apply (approx_area_deg2_spec (mkBBox (-73.5) 42.5 (-73.5) 43)).
  reflexivity.
Defined.

(** C9 as stated fails on a box with a NaN coordinate: [sorted([nan, 1.0])]
    is [[nan, 1.0]] and [nan <= 1.0] is false. *)
Lemma normalized_nan_unordered :
  normalized (mkBBox nan 0 1 1) = mkBBox nan 0 1 1
  /\ le (west (normalized (mkBBox nan 0 1 1)))
        (east (normalized (mkBBox nan 0 1 1))) = false.
Proof. split; reflexivity. Qed.

(** C9 (amended): for every box whose coordinates are numbers (none is NaN),
    [normalized()] returns a box with [west <= east] and [south <= north];
    for every box, NaN or not, west and east are swapped exactly when
    [west > east] and south and north exactly when [south > north].
    [normalized] is a total function of the box alone. *)
Theorem normalized_spec (b : BBox) :
  (numeric b = true ->
     le (west (normalized b)) (east (normalized b)) = true
     /\ le (south (normalized b)) (north (normalized b)) = true)
  /\ (west (normalized b), east (normalized b)) =
       (if gt (west b) (east b) then (east b, west b) else (west b, east b))
  /\ (south (normalized b), north (normalized b)) =
       (if gt (south b) (north b) then (north b, south b) else (south b, north b)).
Proof.
  split; [|apply normalized_swaps].
  intros H. apply normalized_is_ordered in H. apply ordered_inv in H. exact H.
Qed.

Lemma normalized_spec_witness :
  normalized (mkBBox 10 50 (-20) 40) = mkBBox (-20) 40 10 50
  /\ le (west (normalized (mkBBox 10 50 (-20) 40)))
        (east (normalized (mkBBox 10 50 (-20) 40))) = true.
Proof.
  split; [reflexivity|].
  apply (normalized_spec (mkBBox 10 50 (-20) 40)). reflexivity.
Defined.

(** C10 as stated fails on a box with a NaN coordinate: [normalized] leaves
    [(nan, 5.0)] as it is and [clamp] turns the NaN into [180.0], so the
    composition returns west = 180 > east = 5. *)
Lemma normalize_clamp_nan_unordered :
  clamp (normalized (mkBBox nan 0 5 1)) = mkBBox 180 0 5 1
  /\ ordered (clamp (normalized (mkBBox nan 0 5 1))) = false.
Proof. split; reflexivity. Qed.

(** C10 (amended): [clamp] preserves [west <= east] and [south <= north];
    its result always lies within [-180,180] x [-90,90]; and for every box
    whose coordinates are numbers (none is NaN), [normalized().clamp()] is
    at once ordered and within range. *)
Theorem clamp_preserves_order (b : BBox) :
  (le (west b) (east b) = true -> le (south b) (north b) = true ->
     le (west (clamp b)) (east (clamp b)) = true
     /\ le (south (clamp b)) (north (clamp b)) = true)
  /\ in_range (clamp b) = true
  /\ (numeric b = true ->
        ordered (clamp (normalized b)) = true
        /\ in_range (clamp (normalized b)) = true).
Proof.
  split; [|split].
  - intros H1 H2. apply ordered_inv, clamp_is_ordered, ordered_inv. auto.
  - apply clamp_in_range.
  - intros H. split; [|apply clamp_in_range].
    apply clamp_is_ordered, normalized_is_ordered, H.
Qed.

Lemma clamp_preserves_order_witness :
  ordered (clamp (normalized (mkBBox 200 (-95) (-190) 40))) = true
  /\ in_range (clamp (normalized (mkBBox 200 (-95) (-190) 40))) = true.
Proof.
  apply (clamp_preserves_order (mkBBox 200 (-95) (-190) 40)). reflexivity.
Defined.

End BBoxFacts.

(* ================================================================== *)
(** ** The paginated fetch *)

Module FetchFacts.

Section Fetch.

Variable Feature : Type.
Variable remote : Remote Feature.

Lemma py_min_is_min a b : PyInt.py_min a b = Z.min a b.
Proof. unfold PyInt.py_min. destruct (Z.ltb_spec b a); lia. Qed.

Lemma len_app (A : Type) (l l' : list A) :
  PyInt.len (l ++ l') = (PyInt.len l + PyInt.len l')%Z.
Proof. unfold PyInt.len. rewrite length_app. lia. Qed.

Lemma len_nonneg (A : Type) (l : list A) : (0 <= PyInt.len l)%Z.
Proof. unfold PyInt.len. lia. Qed.

Lemma slice_to_bound (A : Type) (l : list A) (k : Z) :
  (0 <= k)%Z -> (PyInt.len (PyInt.slice_to l k) <= k)%Z.
Proof.
  intros Hk. unfold PyInt.slice_to, PyInt.len.
  destruct (Z.ltb_spec k 0); [lia|]. rewrite length_firstn. lia.
Qed.

Lemma slice_to_nil (A : Type) (k : Z) : PyInt.slice_to (@nil A) k = [].
Proof. unfold PyInt.slice_to. apply firstn_nil. Qed.

Lemma slice_to_all (A : Type) (l : list A) (k : Z) :
  PyInt.len l = k -> PyInt.slice_to l k = l.
Proof.
  intros H. unfold PyInt.slice_to, PyInt.len in *.
  destruct (Z.ltb_spec k 0); [lia|].
  rewrite <- H, Nat2Z.id. apply firstn_all.
Qed.

Lemma fetched_app (xs ys : list (Request * Reply Feature)) :
  fetched (xs ++ ys) = fetched xs ++ fetched ys.
Proof. unfold fetched. now rewrite map_app, concat_app. Qed.

Lemma fetched_cons x (xs : list (Request * Reply Feature)) :
  fetched (x :: xs) = page_features x ++ fetched xs.
Proof. reflexivity. Qed.

(** One GET: the exchange is recorded, and the reply decides the result. *)
Lemma http_get_json_run req (w : World Feature) :
  _http_get_json remote req w =
  (match remote (exchanges w) req with
   | ConnectionFailed reason => Raise (RequestException reason)
   | StatusError status => Raise (HTTPError status)
   | Json body => Return body
   end,
   mkWorld (exchanges w ++ [(req, remote (exchanges w) req)]) (cache w)).
Proof. unfold _http_get_json. destruct (remote (exchanges w) req); reflexivity. Qed.

Lemma http_get_json_ok req (w : World Feature) body :
  remote (exchanges w) req = Json body ->
  _http_get_json remote req w =
  (Return body, mkWorld (exchanges w ++ [(req, Json body)]) (cache w)).
Proof. intros H. rewrite http_get_json_run, H. reflexivity. Qed.

Lemma http_get_json_fails req (w : World Feature) e :
  failure (remote (exchanges w) req) = Some e ->
  _http_get_json remote req w =
  (Raise e, mkWorld (exchanges w ++ [(req, remote (exchanges w) req)]) (cache w)).
Proof.
  intros H. rewrite http_get_json_run.
  destruct (remote (exchanges w) req); simpl in H; congruence.
Qed.

Lemma arcgis_count_run a (w : World Feature) :
  _arcgis_count remote (layer_url a) (where_ a) (bbox a) w =
  (match remote (exchanges w) (count_request a) with
   | ConnectionFailed reason => Raise (RequestException reason)
   | StatusError status => Raise (HTTPError status)
   | Json body => Return (count_of body)
   end,
   mkWorld (exchanges w ++ [(count_request a, remote (exchanges w) (count_request a))])
     (cache w)).
Proof.
  unfold _arcgis_count, bind. cbv zeta. fold (count_request a).
  rewrite http_get_json_run.
  destruct (remote (exchanges w) (count_request a)); reflexivity.
Qed.

(** The loop, one index at a time. *)
Lemma page_loop_cons a target i rest acc (w : World Feature) :
  page_loop remote a target (i :: rest) acc w =
  let req := page_request a target i in
  let reply := remote (exchanges w) req in
  let w1 := mkWorld (exchanges w ++ [(req, reply)]) (cache w) in
  match failure reply with
  | Some e => (Raise e, w1)
  | None =>
      let acc' := acc ++ page_features (req, reply) in
      if (target <=? PyInt.len acc')%Z then (Return acc', w1)
      else page_loop remote a target rest acc' w1
  end.
Proof.
  cbn [page_loop]. unfold bind, _arcgis_query_geojson. cbv zeta.
  fold (page_request a target i). rewrite http_get_json_run.
  destruct (remote (exchanges w) (page_request a target i)) as [r|s|[c [fs|]]];
    try reflexivity; unfold failure, page_features, snd;
    cbn [body_features];
    match goal with
    | |- context [(?x <=? ?y)%Z] => destruct (x <=? y)%Z
    end; reflexivity.
Qed.

(** What a run of the loop leaves behind: it talks to the service only; a
    failed request ends it with that request's error; otherwise it returns
    everything the pages delivered, and it stops asking once the target is
    reached. *)
Lemma page_loop_trace a target indices : forall acc (w : World Feature) r w',
  page_loop remote a target indices acc w = (r, w') ->
  exists new,
    exchanges w' = exchanges w ++ new /\ cache w' = cache w /\
    map fst new = map (page_request a target) (firstn (List.length new) indices) /\
    match r with
    | Return fs =>
        Forall (fun x => failure (snd x) = None) new /\
        fs = acc ++ fetched new /\
        (forall pre x post, new = pre ++ x :: post -> post <> [] ->
           (PyInt.len (acc ++ fetched (pre ++ [x])) < target)%Z)
    | Raise e =>
        exists pre x, new = pre ++ [x] /\
          Forall (fun x => failure (snd x) = None) pre /\
          failure (snd x) = Some e
    end.
Proof.
  induction indices as [|i rest IH]; intros acc w r w' H.
  - cbn in H. unfold ret in H. inversion H; subst. exists []. rewrite app_nil_r.
    repeat split; auto. + now rewrite app_nil_r.
    + intros pre x post E. destruct pre; discriminate.
  - rewrite page_loop_cons in H. cbv zeta in H.
    set (req := page_request a target i) in *.
    set (reply := remote (exchanges w) req) in *.
    destruct (failure reply) as [e|] eqn:F.
    + inversion H; subst. exists [(req, reply)]. repeat split; auto.
      exists [], (req, reply). auto.
    + destruct (Z.leb_spec target (PyInt.len (acc ++ page_features (req, reply)))) as [L|L].
      * inversion H; subst. exists [(req, reply)]. simpl. repeat split; auto.
        -- unfold fetched. simpl. now rewrite app_nil_r.
        -- intros pre x post E Hp. destruct pre as [|? [|? ?]]; simpl in E;
             inversion E; subst; congruence.
      * apply IH in H. destruct H as (new & E1 & E2 & E3 & E4). simpl in E1, E2.
        exists ((req, reply) :: new). rewrite <- app_assoc in E1. simpl in E1.
        split; [assumption|]. split; [assumption|]. split.
        { simpl. f_equal. assumption. }
        destruct r as [e|fs].
        -- destruct E4 as (pre & x & -> & Hpre & Hx).
           exists ((req, reply) :: pre), x. repeat split; auto.
        -- destruct E4 as (Hall & -> & Hbreak). repeat split; auto.
           ++ rewrite fetched_cons. now rewrite app_assoc.
           ++ intros pre x post E Hp. destruct pre as [|y pre]; simpl in E;
                inversion E; subst.
              ** unfold fetched. simpl. rewrite app_nil_r. assumption.
              ** specialize (Hbreak _ _ _ eq_refl Hp).
                 simpl. rewrite fetched_cons.
                 rewrite app_assoc. assumption.
Qed.

End Fetch.

End FetchFacts.

Module FetchRun.
Import FetchFacts.

Section Fetch.

Variable Feature : Type.
Variable remote : Remote Feature.

(** [fetch_features_geojson], unfolded along the reply to its count request. *)
Lemma fetch_run a (w : World Feature) :
  fetch_features_geojson remote a w =
  let reply := remote (exchanges w) (count_request a) in
  let w1 := mkWorld (exchanges w ++ [(count_request a, reply)]) (cache w) in
  match reply with
  | ConnectionFailed reason => (Raise (RequestException reason), w1)
  | StatusError status => (Raise (HTTPError status), w1)
  | Json body =>
      if (count_of body <=? 0)%Z then (Return (empty_collection Feature), w1)
      else
        let target := PyInt.py_min (count_of body) (max_features a) in
        match PyInt.true_div target (page_size a) with
        | Raise e => (Raise e, w1)
        | Return quotient =>
            match PyInt.ceil quotient with
            | Raise e => (Raise e, w1)
            | Return pages =>
                match page_loop remote a target (PyInt.range pages) [] w1 with
                | (Return fs, w2) =>
                    (Return (mkFeatureCollection "FeatureCollection"
                               (PyInt.slice_to fs target)), w2)
                | (Raise e, w2) => (Raise e, w2)
                end
            end
        end
  end.
Proof.
  unfold fetch_features_geojson. unfold bind at 1. rewrite arcgis_count_run.
  cbv zeta.
  destruct (remote (exchanges w) (count_request a)) as [reason|status|body];
    try reflexivity.
  destruct (count_of body <=? 0)%Z; [reflexivity|].
  unfold bind, lift, ret.
  destruct (PyInt.true_div _ _) as [e|q]; [reflexivity|].
  destruct (PyInt.ceil q) as [e|pages]; [reflexivity|].
  destruct (page_loop _ _ _ _ _ _) as [[e|fs] w2]; reflexivity.
Qed.

(** What one run of the body leaves behind. *)
Lemma fetch_trace a (w : World Feature) r w' :
  fetch_features_geojson remote a w = (r, w') ->
  exists pages,
    exchanges w' =
      exchanges w ++ (count_request a, remote (exchanges w) (count_request a)) :: pages
    /\ cache w' = cache w
    /\ match r with
       | Return fc =>
           exists body,
             remote (exchanges w) (count_request a) = Json body /\
             Forall (fun x => failure (snd x) = None) pages /\
             type_ fc = "FeatureCollection"%string /\
             features fc =
               PyInt.slice_to (fetched pages) (Z.min (count_of body) (max_features a)) /\
             (forall pre x post, pages = pre ++ x :: post -> post <> [] ->
                (PyInt.len (fetched (pre ++ [x]))
                 < Z.min (count_of body) (max_features a))%Z) /\
             ((count_of body <= 0)%Z -> pages = [])
       | Raise e =>
           (exists pre x,
              (count_request a, remote (exchanges w) (count_request a)) :: pages
                = pre ++ [x] /\
              Forall (fun x => failure (snd x) = None) pre /\
              failure (snd x) = Some e)
           \/ (Forall (fun x => failure (snd x) = None)
                 ((count_request a, remote (exchanges w) (count_request a)) :: pages)
               /\ pages = []
               /\ (e = ZeroDivisionError \/ e = OverflowError \/ e = ValueError))
       end.
Proof.
  rewrite fetch_run. cbv zeta.
  set (reply := remote (exchanges w) (count_request a)).
  destruct reply as [reason|status|body] eqn:R.
  - intros H; inversion H; subst. exists []. repeat split; auto.
    left. exists [], (count_request a, ConnectionFailed reason). auto.
  - intros H; inversion H; subst. exists []. repeat split; auto.
    left. exists [], (count_request a, StatusError status). auto.
  - destruct (Z.leb_spec (count_of body) 0) as [L|L].
    { intros H; inversion H; subst. exists []. repeat split; auto.
      exists body. repeat split; auto.
      - unfold fetched. simpl. now rewrite slice_to_nil.
      - intros pre x post E. destruct pre; discriminate. }
    rewrite py_min_is_min.
    set (target := Z.min (count_of body) (max_features a)).
    assert (Arith : forall e, (exists q, PyInt.true_div target (page_size a) = Raise e
                          \/ PyInt.ceil q = Raise e) ->
                   e = ZeroDivisionError \/ e = OverflowError \/ e = ValueError).
    { intros e [q [H|H]].
      - unfold PyInt.true_div in H. destruct (page_size a =? 0)%Z.
        + inversion H; auto.
        + destruct (SF64div _ _); inversion H; auto.
      - destruct q; simpl in H; inversion H; auto. }
    destruct (PyInt.true_div target (page_size a)) as [e|q] eqn:D.
    { intros H; inversion H; subst. exists []. repeat split; auto.
      right. repeat split; auto. apply Arith. exists (S754_zero false). auto. }
    destruct (PyInt.ceil q) as [e|n] eqn:C.
    { intros H; inversion H; subst. exists []. repeat split; auto.
      right. repeat split; auto. apply Arith. exists q. auto. }
    destruct (page_loop _ _ _ _ _ _) as [[e|fs] w2] eqn:P;
      apply page_loop_trace in P; destruct P as (new & E1 & E2 & E3 & E4);
      simpl in E1, E2; rewrite <- app_assoc in E1; simpl in E1;
      intros H; inversion H; subst; exists new; repeat split; auto.
    + left. destruct E4 as (pre & x & -> & Hpre & Hx).
      exists ((count_request a, Json body) :: pre), x. repeat split; auto.
    + destruct E4 as (Hall & -> & Hbreak).
      exists body. repeat split; auto. lia.
Qed.

End Fetch.

End FetchRun.

(* ================================================================== *)
(** ** [target / page_size] and [math.ceil] *)

Module Division.

(** Rounding keeps a non-negative mantissa non-negative. *)
Lemma shr_1_nonneg mrs : (0 <= shr_m mrs)%Z -> (0 <= shr_m (shr_1 mrs))%Z.
Proof.
  destruct mrs as [m r s]. simpl. destruct m as [|[p|p|]|[p|p|]]; simpl; lia.
Qed.

Lemma iter_shr_1_nonneg p : forall mrs,
  (0 <= shr_m mrs)%Z -> (0 <= shr_m (iter_pos shr_1 p mrs))%Z.
Proof.
  induction p as [p IH|p IH|]; intros mrs H; simpl.
  - apply IH, IH, shr_1_nonneg, H.
  - apply IH, IH, H.
  - apply shr_1_nonneg, H.
Qed.

Lemma shr_fexp_nonneg m e l :
  (0 <= m)%Z -> (0 <= shr_m (fst (shr_fexp prec emax m e l)))%Z.
Proof.
  intros H. unfold shr_fexp, shr.
  assert (H0 : (0 <= shr_m (shr_record_of_loc m l))%Z)
    by (destruct l as [|[| |]]; exact H).
  destruct (fexp prec emax (Zdigits2 m + e) - e)%Z; simpl; auto.
  apply iter_shr_1_nonneg, H0.
Qed.

Lemma round_nearest_even_nonneg m l :
  (0 <= m)%Z -> (0 <= round_nearest_even m l)%Z.
Proof.
  intros H. unfold round_nearest_even.
  destruct l as [|[| |]]; try destruct (Z.even m); lia.
Qed.

Lemma binary_round_aux_sign s m e l :
  (0 <= m)%Z -> PyInt.has_sign s (binary_round_aux prec emax s m e l).
Proof.
  intros H. unfold binary_round_aux.
  pose proof (@shr_fexp_nonneg m e l H) as H1.
  destruct (shr_fexp prec emax m e l) as [mrs' e']. simpl in H1.
  pose proof (@shr_fexp_nonneg
                (round_nearest_even (shr_m mrs') (loc_of_shr_record mrs'))
                e' loc_Exact (round_nearest_even_nonneg _ H1)) as H2.
  destruct (shr_fexp prec emax _ e' loc_Exact) as [mrs'' e'']. simpl in H2.
  destruct (shr_m mrs'') as [|p|p]; [reflexivity| |lia].
  destruct (e'' <=? emax - prec)%Z; reflexivity.
Qed.

Lemma div_core_nonneg m1 e1 m2 e2 :
  (0 <= m1)%Z -> (0 < m2)%Z ->
  (0 <= fst (fst (SFdiv_core_binary prec emax m1 e1 m2 e2)))%Z.
Proof.
  intros H1 H2. unfold SFdiv_core_binary. cbv zeta.
  match goal with
  | |- context [Z.div_eucl ?x m2] =>
      assert (Hx : (0 <= x)%Z);
      [| pose proof (Z_div_mod x m2 ltac:(lia)) as D;
         destruct (Z.div_eucl x m2) as [q r]; simpl; nia ]
  end.
  destruct (e1 - e2 - _)%Z; try lia. apply Z.shiftl_nonneg, H1.
Qed.

(** A quotient of a negative int by a positive one is negative or zero, and
    so is its ceiling. *)
Lemma true_div_negative a b :
  (a <= 0)%Z -> (1 <= b)%Z ->
  PyInt.true_div a b = Raise OverflowError
  \/ exists q pages,
       PyInt.true_div a b = Return q /\ PyInt.ceil q = Return pages
       /\ (pages <= 0)%Z.
Proof.
  intros Ha Hb. unfold PyInt.true_div.
  destruct (Z.eqb_spec b 0) as [->|_]; [lia|].
  destruct b as [|pb|pb]; try lia. destruct a as [|pa|pa]; try lia.
  - right. exists (S754_zero false), 0%Z. repeat split; auto; lia.
  - cbn [PyInt.Z2SF]. unfold SF64div, SFdiv.
    pose proof (@div_core_nonneg (Z.pos pa) 0 (Z.pos pb) 0 ltac:(lia) ltac:(lia)) as Hq.
    destruct (SFdiv_core_binary prec emax (Z.pos pa) 0 (Z.pos pb) 0) as [[mz ez] lz].
    simpl in Hq.
    pose proof (@binary_round_aux_sign (xorb true false) mz ez lz Hq) as Hs.
    destruct (binary_round_aux prec emax (xorb true false) mz ez lz)
      as [s|s| |s m e]; simpl in Hs; try contradiction; subst; auto.
    + right. exists (S754_zero true), 0%Z. repeat split; auto; lia.
    + right. eexists _, _. split; [reflexivity|]. split; [reflexivity|].
      cbn [cond_Zopp xorb]. destruct (Z.leb_spec 0 e).
      * pose proof (Z.pow_nonneg 2 e). nia.
      * rewrite Z.opp_involutive.
        assert (0 <= Z.pos m / 2 ^ (- e))%Z
          by (apply Z.div_pos; [lia|apply Z.pow_pos_nonneg; lia]).
        lia.
Qed.



Lemma digits2_pos_lower p : (2 ^ (Z.pos (digits2_pos p) - 1) <= Z.pos p)%Z.
Proof.
  induction p as [p IH|p IH|]; cbn [digits2_pos]; try (simpl; lia);
    rewrite Pos2Z.inj_succ;
    replace (Z.succ (Z.pos (digits2_pos p)) - 1)%Z
      with (Z.succ (Z.pos (digits2_pos p) - 1))%Z by lia;
    rewrite Z.pow_succ_r by lia; lia.
Qed.

(** A non-negative mantissa below [2^k] has at most [k] digits. *)
Lemma Zdigits2_le m k :
  (0 <= m)%Z -> (0 <= k)%Z -> (m < 2 ^ k)%Z -> (Zdigits2 m <= k)%Z.
Proof.
  intros Hm Hk H. destruct m as [|p|p]; simpl; try lia.
  pose proof (digits2_pos_lower p) as L.
  assert (2 ^ (Z.pos (digits2_pos p) - 1) < 2 ^ k)%Z as P by lia.
  apply Z.pow_lt_mono_r_iff in P; lia.
Qed.

Lemma shr_1_half mrs :
  (0 <= shr_m mrs)%Z -> shr_m (shr_1 mrs) = (shr_m mrs / 2)%Z.
Proof.
  destruct mrs as [m r s]. cbn [shr_m]. intros H.
  destruct m as [|[p|p|]|p]; cbn [shr_1 shr_m]; try lia.
  - reflexivity.
  - rewrite Pos2Z.inj_xI. apply Z.div_unique with 1%Z; lia.
  - rewrite Pos2Z.inj_xO. apply Z.div_unique with 0%Z; lia.
  - reflexivity.
Qed.

Lemma pow2_xI p : (2 ^ Z.pos p~1 = 2 * (2 ^ Z.pos p * 2 ^ Z.pos p))%Z.
Proof.
  replace (Z.pos p~1) with (Z.succ (Z.pos p + Z.pos p)) by lia.
  rewrite Z.pow_succ_r, Z.pow_add_r by lia. reflexivity.
Qed.

Lemma pow2_xO p : (2 ^ Z.pos p~0 = 2 ^ Z.pos p * 2 ^ Z.pos p)%Z.
Proof.
  replace (Z.pos p~0) with (Z.pos p + Z.pos p)%Z by lia.
  rewrite Z.pow_add_r by lia. reflexivity.
Qed.

Lemma iter_shr_1_div p : forall mrs,
  (0 <= shr_m mrs)%Z ->
  shr_m (iter_pos shr_1 p mrs) = (shr_m mrs / 2 ^ Z.pos p)%Z.
Proof.
  assert (P : forall q, (0 < 2 ^ Z.pos q)%Z)
    by (intros; apply Z.pow_pos_nonneg; lia).
  induction p as [p IH|p IH|]; intros mrs H; cbn [iter_pos].
  - rewrite IH, IH, shr_1_half by auto using iter_shr_1_nonneg, shr_1_nonneg.
    pose proof (P p).
    rewrite !Z.div_div by lia. rewrite pow2_xI. reflexivity.
  - rewrite IH, IH by auto using iter_shr_1_nonneg.
    pose proof (P p).
    rewrite !Z.div_div by lia. rewrite pow2_xO. reflexivity.
  - rewrite shr_1_half by auto. reflexivity.
Qed.

Lemma shr_fexp_below K m e l :
  (971 <= K <= 1024)%Z -> PyInt.below K m e ->
  PyInt.below K (shr_m (fst (shr_fexp prec emax m e l))) (snd (shr_fexp prec emax m e l)).
Proof.
  intros HK (Hm & He & Hlt). unfold shr_fexp, shr.
  assert (Hd : (Zdigits2 m + e <= K)%Z).
  { pose proof (@Zdigits2_le m (K - e) Hm ltac:(lia) Hlt). lia. }
  assert (Hf : (fexp prec emax (Zdigits2 m + e) <= 971)%Z).
  { unfold fexp, SpecFloat.emin, prec, emax. lia. }
  assert (H0 : shr_m (shr_record_of_loc m l) = m)
    by (destruct l as [|[| |]]; reflexivity).
  destruct (fexp prec emax (Zdigits2 m + e) - e)%Z as [|n|n] eqn:En;
    cbn [fst snd]; rewrite ?H0; try (repeat split; assumption).
  rewrite iter_shr_1_div, H0 by (rewrite H0; assumption).
  assert (Hn : (e + Z.pos n <= 971)%Z) by lia.
  repeat split.
  - apply Z.div_pos; [assumption|apply Z.pow_pos_nonneg; lia].
  - assumption.
  - apply Z.div_lt_upper_bound; [apply Z.pow_pos_nonneg; lia|].
    rewrite <- Z.pow_add_r by lia.
    replace (Z.pos n + (K - (e + Z.pos n)))%Z with (K - e)%Z by lia.
    assumption.
Qed.

Lemma round_nearest_even_le m l : (round_nearest_even m l <= m + 1)%Z.
Proof.
  unfold round_nearest_even. destruct l as [|[| |]];
    try destruct (Z.even m); lia.
Qed.

(** Rounding a value below [2^1023] does not overflow. *)
Lemma binary_round_aux_finite s m e l :
  PyInt.below 1023 m e ->
  match binary_round_aux prec emax s m e l with
  | S754_infinity _ | S754_nan => False
  | _ => True
  end.
Proof.
  intros B. unfold binary_round_aux.
  pose proof (@shr_fexp_below 1023 m e l ltac:(lia) B) as B1.
  destruct (shr_fexp prec emax m e l) as [mrs' e']. cbn [fst snd] in B1.
  destruct B1 as (M1 & E1 & L1).
  assert (B2 : PyInt.below 1024 (round_nearest_even (shr_m mrs') (loc_of_shr_record mrs')) e').
  { pose proof (round_nearest_even_le (shr_m mrs') (loc_of_shr_record mrs')).
    repeat split; auto using round_nearest_even_nonneg.
    replace (1024 - e')%Z with (Z.succ (1023 - e'))%Z by lia.
    rewrite Z.pow_succ_r by lia. lia. }
  apply (@shr_fexp_below 1024 _ _ loc_Exact ltac:(lia)) in B2.
  destruct (shr_fexp prec emax _ e' loc_Exact) as [mrs'' e'']. cbn [fst snd] in B2.
  destruct B2 as (M2 & E2 & _).
  destruct (shr_m mrs'') as [|p|p]; auto; try lia.
  destruct (Z.leb_spec e'' (emax - prec)); auto. unfold emax, prec in *. lia.
Qed.

Lemma div_core_below m1 m2 :
  (0 < m1 < 2 ^ 1023)%Z -> (0 < m2)%Z ->
  PyInt.below 1023 (fst (fst (SFdiv_core_binary prec emax m1 0 m2 0)))
             (snd (fst (SFdiv_core_binary prec emax m1 0 m2 0))).
Proof.
  intros H1 H2. unfold SFdiv_core_binary. cbv zeta.
  set (e' := Z.min (fexp prec emax (Zdigits2 m1 + 0 - (Zdigits2 m2 + 0))) (0 - 0)).
  assert (He : (e' <= 0)%Z) by (unfold e'; lia).
  set (m' := match (0 - 0 - e')%Z with
             | 0%Z => m1
             | Z.pos _ => Z.shiftl m1 (0 - 0 - e')
             | Z.neg _ => 0%Z
             end).
  assert (Hm : (0 <= m' <= m1 * 2 ^ (- e'))%Z).
  { unfold m'. destruct (0 - 0 - e')%Z as [|p|p] eqn:E; try lia.
    - replace (- e')%Z with 0%Z by lia. simpl. lia.
    - rewrite Z.shiftl_mul_pow2 by lia. replace (- e')%Z with (Z.pos p) by lia.
      pose proof (Z.pow_pos_nonneg 2 (Z.pos p)). nia. }
  pose proof (Z_div_mod m' m2 ltac:(lia)) as D.
  destruct (Z.div_eucl m' m2) as [q r]. cbn [fst snd].
  assert (Hq : (0 <= q <= m')%Z) by nia.
  repeat split; try lia.
  replace (1023 - e')%Z with (1023 + - e')%Z by lia.
  rewrite Z.pow_add_r by lia.
  pose proof (Z.pow_pos_nonneg 2 (- e')). nia.
Qed.

(** [math.ceil(a / b)] does not raise for [b != 0] and [|a| < 2^1023]. *)
Lemma ceil_true_div_returns a b :
  (Z.abs a < 2 ^ 1023)%Z -> b <> 0%Z ->
  exists q pages, PyInt.true_div a b = Return q /\ PyInt.ceil q = Return pages.
Proof.
  intros Ha Hb. unfold PyInt.true_div.
  destruct (Z.eqb_spec b 0) as [|_]; [contradiction|].
  assert (C : forall sa sb pa pb, (Z.pos pa < 2 ^ 1023)%Z ->
            exists q pages,
              match SF64div (S754_finite sa pa 0) (S754_finite sb pb 0) with
              | S754_infinity _ => Raise OverflowError
              | q => Return q
              end = Return q /\ PyInt.ceil q = Return pages).
  { intros sa sb pa pb H. unfold SF64div, SFdiv.
    pose proof (@div_core_below (Z.pos pa) (Z.pos pb) ltac:(lia) ltac:(lia)) as B.
    destruct (SFdiv_core_binary prec emax (Z.pos pa) 0 (Z.pos pb) 0) as [[mz ez] lz].
    cbn [fst snd] in B.
    pose proof (@binary_round_aux_finite (xorb sa sb) mz ez lz B) as F.
    destruct (binary_round_aux prec emax (xorb sa sb) mz ez lz);
      try contradiction; eexists _, _; split; reflexivity. }
  destruct a as [|pa|pa], b as [|pb|pb]; try contradiction; cbn [PyInt.Z2SF];
    try (apply C; lia); eexists _, _; split; reflexivity.
Qed.

End Division.

(* ================================================================== *)
(** ** Properties of the paginated fetch *)

Module Pagination.
Import FetchFacts FetchRun.

Section Fetch.

Variable Feature : Type.
Variable remote : Remote Feature.

(** C6: when the count request yields [total <= 0] (a missing count reads as
    0), [fetch_features_geojson] returns the empty FeatureCollection, as a
    value and not as an exception, and the count request is the only exchange
    of the call: no page is queried. *)
Theorem fetch_empty_when_count_not_positive
    (a : Args) (w : World Feature) (body : Body Feature) :
  remote (exchanges w) (count_request a) = Json body ->
  (count_of body <= 0)%Z ->
  fetch_features_geojson remote a w =
  (Return (mkFeatureCollection "FeatureCollection" []),
   mkWorld (exchanges w ++ [(count_request a, Json body)]) (cache w)).
Proof.
  intros H L. rewrite fetch_run, H. cbv beta iota zeta.
  apply Z.leb_le in L. rewrite L. reflexivity.
Qed.

(** C5 (amended): for every fetch that returns, the result is the
    accumulated pages sliced at [target = min(total, max_features)], and no
    page is requested once the accumulated count has reached [target], also
    when a page delivers more than was asked for; with [max_features >= 0]
    the length is at most [max(0, target)], hence at most
    [min(total, max_features)] when the count is not negative either. *)
Theorem fetch_result_is_capped
    (a : Args) (w w' : World Feature) (fc : FeatureCollection Feature) :
  fetch_features_geojson remote a w = (Return fc, w') ->
  exists body pages,
    remote (exchanges w) (count_request a) = Json body
    /\ exchanges w' = exchanges w ++ (count_request a, Json body) :: pages
    /\ features fc =
         PyInt.slice_to (fetched pages) (Z.min (count_of body) (max_features a))
    /\ (forall pre x post, pages = pre ++ x :: post -> post <> [] ->
          (PyInt.len (fetched (pre ++ [x]))
           < Z.min (count_of body) (max_features a))%Z)
    /\ ((0 <= max_features a)%Z ->
          (PyInt.len (features fc)
           <= Z.max 0 (Z.min (count_of body) (max_features a)))%Z)
    /\ ((0 <= max_features a)%Z -> (0 <= count_of body)%Z ->
          (PyInt.len (features fc)
           <= Z.min (count_of body) (max_features a))%Z).
Proof.
  intros H. apply fetch_trace in H.
  destruct H as (pages & E1 & E2 & body & R & Hall & Ht & Hf & Hbreak & Hnil).
  exists body, pages. rewrite R in E1.
  assert (B : (0 <= max_features a)%Z ->
              (PyInt.len (features fc)
               <= Z.max 0 (Z.min (count_of body) (max_features a)))%Z).
  { intros Hm. rewrite Hf.
    destruct (Z.le_gt_cases (count_of body) 0) as [L|L].
    - rewrite (Hnil L). unfold fetched. simpl. rewrite slice_to_nil.
      unfold PyInt.len. cbn [List.length Z.of_nat]. lia.
    - etransitivity; [apply slice_to_bound|]; lia. }
  repeat split; auto. intros Hm Hc. specialize (B Hm).
  rewrite Z.max_r in B by (apply Z.min_glb; assumption). exact B.
Qed.

End Fetch.

(** C6, on a layer that matches nothing: the count is 0. *)
Lemma fetch_empty_when_count_not_positive_witness :
  fetch_features_geojson (sample_remote 0 1000) (sample_args None 2000 1000)
    empty_world
  = (Return (mkFeatureCollection "FeatureCollection" []),
     mkWorld
       [(count_request (sample_args None 2000 1000), Json (mkBody (Some 0%Z) None))]
       []).
Proof.
  apply (@fetch_empty_when_count_not_positive Z (sample_remote 0 1000)
           (sample_args None 2000 1000) empty_world (mkBody (Some 0%Z) None));
    [reflexivity|vm_compute; congruence].
Defined.

(** C5 as stated fails for a negative cap: with [total = 5] and
    [max_features = -1] the call returns the empty collection, whose length 0
    is not [<= min(5, -1)]. *)
Lemma negative_cap_exceeds_min :
  fst (fetch_features_geojson (sample_remote 5 1000) (sample_args None (-1) 1000)
         empty_world)
    = Return (mkFeatureCollection "FeatureCollection" [])
  /\ ~ (PyInt.len (@nil Z) <= Z.min 5 (-1))%Z.
Proof. split; [vm_compute; reflexivity|vm_compute; congruence]. Qed.

(** C5 (amended), on a server that ignores [resultRecordCount]: the layer has
    10 features, the cap is 4 and pages of 3 are asked for, but every page
    comes back with up to 8 features.  One page is requested and the first 4
    of its 8 features are returned. *)
Lemma fetch_result_is_capped_witness :
  fetch_features_geojson (sample_remote_ignoring_count 10 8)
    (sample_args None 4 3) empty_world
  = (Return (mkFeatureCollection "FeatureCollection" (numbered 0 4)),
     mkWorld
       [(count_request (sample_args None 4 3), Json (mkBody (Some 10%Z) None));
        (page_request (sample_args None 4 3) 4 0,
         Json (mkBody None (Some (numbered 0 8))))]
       [])
  /\ (PyInt.len (numbered 0 4) <= Z.min 10 4)%Z.
Proof.
  split; [vm_compute; reflexivity|].
  destruct (@fetch_result_is_capped Z (sample_remote_ignoring_count 10 8)
              (sample_args None 4 3) empty_world _
              (mkFeatureCollection "FeatureCollection" (numbered 0 4))
              eq_refl)
    as (body & pages & R & _ & _ & _ & _ & B).
  vm_compute in R. injection R as <-.
  apply B; vm_compute; congruence.
Defined.

Section NonPositiveCap.

Variable Feature : Type.
Variable remote : Remote Feature.

Lemma range_non_positive n : (n <= 0)%Z -> PyInt.range n = [].
Proof.
  intros H. unfold PyInt.range. destruct n; try lia; reflexivity.
Qed.

(** C2 (amended): with [max_features <= 0] (and [page_size >= 1]) the call
    still sends the count request, and nothing else: no page is requested.
    If the count request fails its error is raised; otherwise the call
    returns the empty FeatureCollection, for every cap above [-2^1023] (the
    int division [target / page_size] overflows Python's float only beyond
    that). *)
Theorem fetch_with_non_positive_cap (a : Args) (w : World Feature) :
  (max_features a <= 0)%Z -> (1 <= page_size a)%Z ->
  let reply := remote (exchanges w) (count_request a) in
  exists r,
    fetch_features_geojson remote a w
      = (r, mkWorld (exchanges w ++ [(count_request a, reply)]) (cache w))
    /\ match failure reply with
       | Some e => r = Raise e
       | None =>
           r = Return (mkFeatureCollection "FeatureCollection" [])
           \/ r = Raise OverflowError
       end
    /\ ((- 2 ^ 1023 < max_features a)%Z -> failure reply = None ->
          r = Return (mkFeatureCollection "FeatureCollection" [])).
Proof.
  intros Hm Hp reply. rewrite fetch_run. cbv zeta. fold reply.
  destruct reply as [reason|status|body]; cbn [failure].
  - eexists; repeat split; auto. discriminate.
  - eexists; repeat split; auto. discriminate.
  - destruct (Z.leb_spec (count_of body) 0) as [L|L].
    { eexists; repeat split; auto. }
    rewrite py_min_is_min.
    assert (T : Z.min (count_of body) (max_features a) = max_features a) by lia.
    rewrite T.
    destruct (Division.true_div_negative Hm Hp) as [O|(q & pages & D & C & N)].
    + rewrite O. eexists; repeat split; auto. intros B _. exfalso.
      destruct (@Division.ceil_true_div_returns (max_features a) (page_size a))
        as (q & pages & D & _); try lia. congruence.
    + rewrite D, C, (range_non_positive N). cbn [page_loop]. unfold ret.
      rewrite slice_to_nil. eexists; repeat split; auto.
Qed.

End NonPositiveCap.

(** C2 as stated fails: with [max_features = 0] the call returns the empty
    collection only after the count request has gone out. *)
Lemma zero_cap_still_counts :
  fetch_features_geojson (sample_remote 10000 1000) (sample_args None 0 1000)
    empty_world
  = (Return (mkFeatureCollection "FeatureCollection" []),
     mkWorld
       [(count_request (sample_args None 0 1000),
         Json (mkBody (Some 10000%Z) None))]
       [])
  /\ exchanges (snd (fetch_features_geojson (sample_remote 10000 1000)
                       (sample_args None 0 1000) empty_world)) <> [].
Proof. split; [vm_compute; reflexivity|vm_compute; discriminate]. Qed.

Lemma fetch_with_non_positive_cap_witness :
  fetch_features_geojson (sample_remote 10000 1000) (sample_args None (-3) 1000)
    empty_world
  = (Return (mkFeatureCollection "FeatureCollection" []),
     mkWorld
       [(count_request (sample_args None (-3) 1000),
         Json (mkBody (Some 10000%Z) None))]
       []).
Proof.
  destruct (@fetch_with_non_positive_cap Z (sample_remote 10000 1000)
              (sample_args None (-3) 1000) empty_world)
    as (r & E & _ & R); [vm_compute; congruence|vm_compute; congruence|].
  rewrite E, R; [reflexivity| |reflexivity].
  change (sample_args None (-3) 1000).(max_features) with (-3)%Z. lia.
Defined.

Section ThreePages.

Variable Feature : Type.
Variable remote : Remote Feature.

(** C1 (amended): [max_features = 2500], [page_size = 1000], the count
    request answered with 10000, and each page request answered with exactly
    as many features as its [resultRecordCount] asks for.  Then the call
    sends the count request and exactly three page requests, with offsets 0,
    1000, 2000 and record counts 1000, 1000, 500, and returns the 2500
    features of the three pages in the order the pages delivered them. *)
Theorem fetch_three_pages
    (a : Args) (w : World Feature) (b0 b1 b2 b3 : Body Feature)
    (f1 f2 f3 : list Feature) :
  max_features a = 2500%Z -> page_size a = 1000%Z ->
  let url := (layer_url a ++ "/query")%string in
  let g := geometry_of (bbox a) in
  let q0 := CountQuery url (where_ a) g in
  let q1 := FeatureQuery url (where_ a) (out_fields a) g 1000 0 in
  let q2 := FeatureQuery url (where_ a) (out_fields a) g 1000 1000 in
  let q3 := FeatureQuery url (where_ a) (out_fields a) g 500 2000 in
  let h1 := exchanges w ++ [(q0, Json b0)] in
  let h2 := h1 ++ [(q1, Json b1)] in
  let h3 := h2 ++ [(q2, Json b2)] in
  let h4 := h3 ++ [(q3, Json b3)] in
  remote (exchanges w) q0 = Json b0 -> body_count b0 = Some 10000%Z ->
  remote h1 q1 = Json b1 -> body_features b1 = Some f1 -> PyInt.len f1 = 1000%Z ->
  remote h2 q2 = Json b2 -> body_features b2 = Some f2 -> PyInt.len f2 = 1000%Z ->
  remote h3 q3 = Json b3 -> body_features b3 = Some f3 -> PyInt.len f3 = 500%Z ->
  fetch_features_geojson remote a w
    = (Return (mkFeatureCollection "FeatureCollection" (f1 ++ f2 ++ f3)),
       mkWorld h4 (cache w))
  /\ PyInt.len (f1 ++ f2 ++ f3) = 2500%Z.
Proof.
  intros Hm Hp url g q0 q1 q2 q3 h1 h2 h3 h4
    R0 C0 R1 F1 L1 R2 F2 L2 R3 F3 L3.
  assert (Hlen : PyInt.len (f1 ++ f2 ++ f3) = 2500%Z)
    by (rewrite !len_app; lia).
  split; [|exact Hlen].
  rewrite fetch_run. cbv zeta. fold url g. fold q0.
  change (count_request a) with q0. rewrite R0. cbv beta iota.
  unfold count_of. rewrite C0, Hm, Hp.
  change (10000 <=? 0)%Z with false. cbv beta iota.
  change (PyInt.py_min 10000 2500) with 2500%Z.
  replace (PyInt.true_div 2500 1000)
    with (Return (A := spec_float) (S754_finite false 5629499534213120 (-51)))
    by (vm_compute; reflexivity).
  replace (PyInt.ceil (S754_finite false 5629499534213120 (-51)))
    with (Return 3%Z) by (vm_compute; reflexivity).
  change (PyInt.range 3) with [0; 1; 2]%Z.
  assert (P1 : page_request a 2500 0 = q1)
    by (unfold page_request; rewrite Hp; reflexivity).
  assert (P2 : page_request a 2500 1 = q2)
    by (unfold page_request; rewrite Hp; reflexivity).
  assert (P3 : page_request a 2500 2 = q3)
    by (unfold page_request; rewrite Hp; reflexivity).
  assert (G : forall q (b : Body Feature) fs,
             body_features b = Some fs -> page_features (q, Json b) = fs).
  { intros q [c o] fs E. simpl in E. subst. reflexivity. }
  rewrite page_loop_cons. cbv zeta. cbn [exchanges cache].
  rewrite P1. fold h1. rewrite R1. cbn [failure]. rewrite (G q1 _ _ F1).
  cbn [app]. rewrite (proj2 (Z.leb_gt 2500 (PyInt.len f1))) by lia.
  rewrite page_loop_cons. cbv zeta. cbn [exchanges cache].
  rewrite P2. fold h2. rewrite R2. cbn [failure]. rewrite (G q2 _ _ F2).
  rewrite (proj2 (Z.leb_gt 2500 (PyInt.len (f1 ++ f2))))
    by (rewrite len_app; lia).
  rewrite page_loop_cons. cbv zeta. cbn [exchanges cache].
  rewrite P3. fold h3. rewrite R3. cbn [failure]. rewrite (G q3 _ _ F3).
  rewrite <- app_assoc.
  rewrite (proj2 (Z.leb_le 2500 (PyInt.len (f1 ++ f2 ++ f3)))) by lia.
  rewrite (slice_to_all _ Hlen). reflexivity.
Qed.

End ThreePages.


(** C1 as stated fails when the server delivers fewer features per page than
    asked for: the count request is answered with 10000, the three page
    requests go out as planned, but with pages of at most 500 features the
    call returns 1500 features, not 2500. *)
Lemma short_pages_fall_short :
  fetch_features_geojson (sample_remote 10000 500) (sample_args None 2500 1000)
    empty_world
  = (Return (mkFeatureCollection "FeatureCollection"
               (numbered 0 500 ++ numbered 1000 500 ++ numbered 2000 500)),
     mkWorld
       [(count_request (sample_args None 2500 1000), Json (mkBody (Some 10000%Z) None));
        (page_request (sample_args None 2500 1000) 2500 0,
         Json (mkBody None (Some (numbered 0 500))));
        (page_request (sample_args None 2500 1000) 2500 1,
         Json (mkBody None (Some (numbered 1000 500))));
        (page_request (sample_args None 2500 1000) 2500 2,
         Json (mkBody None (Some (numbered 2000 500))))]
       [])
  /\ PyInt.len (numbered 0 500 ++ numbered 1000 500 ++ numbered 2000 500) = 1500%Z.
Proof. split; vm_compute; reflexivity. Qed.

Lemma fetch_three_pages_witness :
  fetch_features_geojson (sample_remote 10000 1000) (sample_args None 2500 1000)
    empty_world
  = (Return (mkFeatureCollection "FeatureCollection"
               (numbered 0 1000 ++ numbered 1000 1000 ++ numbered 2000 500)),
     mkWorld
       [(count_request (sample_args None 2500 1000), Json (mkBody (Some 10000%Z) None));
        (page_request (sample_args None 2500 1000) 2500 0,
         Json (mkBody None (Some (numbered 0 1000))));
        (page_request (sample_args None 2500 1000) 2500 1,
         Json (mkBody None (Some (numbered 1000 1000))));
        (page_request (sample_args None 2500 1000) 2500 2,
         Json (mkBody None (Some (numbered 2000 500))))]
       [])
  /\ PyInt.len (numbered 0 1000 ++ numbered 1000 1000 ++ numbered 2000 500) = 2500%Z.
Proof.
  apply (@fetch_three_pages Z (sample_remote 10000 1000)
           (sample_args None 2500 1000) empty_world
           (mkBody (Some 10000%Z) None)
           (mkBody None (Some (numbered 0 1000)))
           (mkBody None (Some (numbered 1000 1000)))
           (mkBody None (Some (numbered 2000 500)))
           (numbered 0 1000) (numbered 1000 1000) (numbered 2000 500));
    vm_compute; reflexivity.
Defined.

End Pagination.

(* ================================================================== *)
(** ** The result cache *)

Module Caching.
Import FetchFacts FetchRun.

Lemma same_float_refl x : same_float x x = true.
Proof. unfold same_float. now apply FloatAxioms.Leibniz.eqb_spec. Qed.

Lemma same_float_eq x y : same_float x y = true -> x = y.
Proof. unfold same_float. apply FloatAxioms.Leibniz.eqb_spec. Qed.

Lemma same_bbox_refl b : same_bbox b b = true.
Proof. unfold same_bbox. now rewrite !same_float_refl. Qed.

Lemma same_bbox_eq b c : same_bbox b c = true -> b = c.
Proof.
  unfold same_bbox. rewrite !andb_true_iff. intros [[[H1 H2] H3] H4].
  apply same_float_eq in H1, H2, H3, H4. destruct b, c; simpl in *. congruence.
Qed.

Lemma same_args_refl a : same_args a a = true.
Proof.
  unfold same_args.
  rewrite !String.eqb_refl, !Z.eqb_refl.
  destruct (bbox a); [rewrite same_bbox_refl|]; reflexivity.
Qed.

(** Entries are keyed on the arguments as they were passed. *)
Lemma same_args_eq a b : same_args a b = true -> a = b.
Proof.
  unfold same_args. rewrite !andb_true_iff.
  intros [[[[[H1 H2] H3] H4] H5] H6].
  apply String.eqb_eq in H1, H2, H3. apply Z.eqb_eq in H5, H6.
  assert (bbox a = bbox b).
  { destruct (bbox a), (bbox b); try discriminate; auto.
    apply same_bbox_eq in H4. congruence. }
  destruct a, b; simpl in *. congruence.
Qed.

Section Cache.

Variable Feature : Type.
Variable remote : Remote Feature.

Lemma cache_lookup_fresh now now' a (v : FeatureCollection Feature) entries :
  (now' < now + ttl)%Z ->
  cache_lookup now' a (mkCacheEntry a v now :: entries) = Some v.
Proof.
  intros H. unfold cache_lookup. cbn [find entry_key].
  rewrite same_args_refl. cbn [entry_time entry_value].
  apply Z.ltb_lt in H. now rewrite H.
Qed.

(** An entry that is missing or stale stays so as time passes. *)
Lemma cache_lookup_stays_none now now' a (entries : list (CacheEntry Feature)) :
  cache_lookup now a entries = None -> (now <= now')%Z ->
  cache_lookup now' a entries = None.
Proof.
  unfold cache_lookup. destruct (find _ entries) as [e|]; auto.
  destruct (Z.ltb_spec now (entry_time e + ttl)); [discriminate|].
  intros _ H'. destruct (Z.ltb_spec now' (entry_time e + ttl)); [lia|reflexivity].
Qed.

Lemma cached_hit now a (w : World Feature) v :
  cache_lookup now a (cache w) = Some v ->
  cached_fetch_features_geojson remote now a w = (Return v, w).
Proof. intros H. unfold cached_fetch_features_geojson. now rewrite H. Qed.

Lemma cached_miss now a (w : World Feature) :
  cache_lookup now a (cache w) = None ->
  cached_fetch_features_geojson remote now a w =
  match fetch_features_geojson remote a w with
  | (Return v, w') =>
      (Return v, mkWorld (exchanges w') (mkCacheEntry a v now :: cache w'))
  | (Raise e, w') => (Raise e, w')
  end.
Proof. intros H. unfold cached_fetch_features_geojson. now rewrite H. Qed.

(** C3 (amended): the cache is keyed on the arguments as passed.  When a call
    runs the body and the body returns, a second call with the same
    arguments (the same strings, the same box coordinate for coordinate, the
    same cap and page size) less than [ttl] = 300 seconds later returns the
    stored value and leaves the world as it was: the two calls together have
    made the exchanges of a single run of the body, and no more. *)
Theorem second_call_is_served_from_cache
    (now1 now2 : Z) (a a' : Args) (w w1 : World Feature)
    (v : FeatureCollection Feature) :
  cache_lookup now1 a (cache w) = None ->
  cached_fetch_features_geojson remote now1 a w = (Return v, w1) ->
  same_args a a' = true ->
  (now1 <= now2 < now1 + ttl)%Z ->
  cached_fetch_features_geojson remote now2 a' w1 = (Return v, w1)
  /\ exists w0,
       fetch_features_geojson remote a w = (Return v, w0)
       /\ exchanges w1 = exchanges w0.
Proof.
  intros Hmiss H1 Hsame Ht. apply same_args_eq in Hsame. subst a'.
  rewrite cached_miss in H1 by exact Hmiss.
  destruct (fetch_features_geojson remote a w) as [[e|v0] w0] eqn:F;
    inversion H1; subst.
  split.
  - apply cached_hit. cbn [cache]. apply cache_lookup_fresh. lia.
  - exists w0. split; reflexivity.
Qed.

Lemma failed_exchange_is_last
    (pre' pre post : list (Request * Reply Feature)) x' x e :
  pre' ++ [x'] = pre ++ x :: post ->
  Forall (fun y => failure (snd y) = None) pre' ->
  failure (snd x) = Some e ->
  post = [] /\ x = x'.
Proof.
  revert pre. induction pre' as [|y pre' IH]; intros pre E Hall Hx.
  - destruct pre as [|z pre]; simpl in E.
    + inversion E; subst. auto.
    + inversion E. destruct pre; discriminate.
  - destruct pre as [|z pre]; simpl in E; inversion E; subst.
    + inversion Hall; subst. congruence.
    + inversion Hall; subst. eapply IH; eauto.
Qed.

(** C4: when a request of the call, the count request or a page request,
    fails with a transport error or an HTTP status error, the call raises
    that error: it returns no FeatureCollection, whatever earlier pages
    delivered, and the failed request is the last one it sends.  Nothing is
    stored in the cache, so a later call with the same arguments finds no
    entry and runs the body again, starting with a new count request. *)
Theorem failed_fetch_raises_and_is_not_cached
    (now : Z) (a : Args) (w w' : World Feature)
    (r : Result (FeatureCollection Feature))
    (pre post : list (Request * Reply Feature)) (x : Request * Reply Feature)
    (e : Exn) :
  cached_fetch_features_geojson remote now a w = (r, w') ->
  exchanges w' = exchanges w ++ pre ++ x :: post ->
  failure (snd x) = Some e ->
  r = Raise e /\ post = [] /\ cache w' = cache w
  /\ forall now', (now <= now')%Z ->
       cache_lookup now' a (cache w') = None
       /\ exists r2 w2 pages,
            cached_fetch_features_geojson remote now' a w' = (r2, w2)
            /\ exchanges w2 =
                 exchanges w' ++
                 (count_request a, remote (exchanges w') (count_request a)) :: pages.
Proof.
  intros H E Hx. unfold cached_fetch_features_geojson in H.
  destruct (cache_lookup now a (cache w)) as [v|] eqn:L.
  { inversion H; subst. exfalso.
    rewrite <- (app_nil_r (exchanges w')) in E at 1.
    apply app_inv_head in E. destruct pre; discriminate. }
  destruct (fetch_features_geojson remote a w) as [[e0|v0] w0] eqn:F.
  - inversion H; subst. pose proof F as T. apply fetch_trace in T.
    destruct T as (pages & E1 & E2 & T).
    rewrite E1 in E. apply app_inv_head in E.
    assert (R : e0 = e /\ post = []).
    { destruct T as [(pre' & x' & E3 & Hall & Hx')|(Hall & _)].
      - rewrite E3 in E.
        destruct (@failed_exchange_is_last pre' pre post x' x e E Hall Hx)
          as [-> ->].
        split; congruence.
      - exfalso. rewrite E in Hall. apply Forall_app in Hall.
        destruct Hall as [_ Hall]. inversion Hall; subst. congruence. }
    destruct R as [-> ->]. repeat split; auto.
    + rewrite E2. eapply cache_lookup_stays_none; eauto.
    + rewrite cached_miss
        by (rewrite E2; eapply cache_lookup_stays_none; eauto).
      destruct (fetch_features_geojson remote a w') as [[e2|v2] w2] eqn:F2;
        apply fetch_trace in F2; destruct F2 as (pages2 & E4 & _);
        eexists _, _, pages2; split; try reflexivity; exact E4.
  - exfalso. pose proof F as T. apply fetch_trace in T.
    destruct T as (pages & E1 & E2 & body & R & Hall & _).
    inversion H; subst. cbn [exchanges] in E. rewrite E1 in E.
    apply app_inv_head in E.
    assert (Hall' : Forall (fun y => failure (snd y) = None)
                      ((count_request a, remote (exchanges w) (count_request a)) :: pages)).
    { constructor; auto. rewrite R. reflexivity. }
    rewrite E in Hall'. apply Forall_app in Hall'.
    destruct Hall' as [_ Hall']. inversion Hall'; subst. congruence.
Qed.

End Cache.

(** C3 as stated fails: two boxes that are equal once normalised and clamped
    are different cache keys.  The view [(-200, 10, -170, 20)] and the view
    [(-180, 10, -170, 20)] clamp to the same box and send the same query, yet
    the second call, one second after the first, runs the body again: there
    are two count requests. *)
Lemma clamped_views_do_not_share_an_entry :
  clamp (normalized (mkBBox (-200) 10 (-170) 20))
    = clamp (normalized (mkBBox (-180) 10 (-170) 20))
  /\ exists r1 w1 r2 w2,
       cached_fetch_features_geojson (sample_remote 10 1000) 0
         (sample_args (Some (mkBBox (-200) 10 (-170) 20)) 5 1000) empty_world
         = (r1, w1)
       /\ cached_fetch_features_geojson (sample_remote 10 1000) 1
            (sample_args (Some (mkBBox (-180) 10 (-170) 20)) 5 1000) w1
            = (r2, w2)
       /\ List.length (filter (@is_count_query Z) (exchanges w1)) = 1%nat
       /\ List.length (filter (@is_count_query Z) (exchanges w2)) = 2%nat.
Proof.
  split; [reflexivity|].
  eexists _, _, _, _. split; [vm_compute; reflexivity|].
  split; [vm_compute; reflexivity|]. split; reflexivity.
Qed.

Lemma second_call_is_served_from_cache_witness :
  exists v w1,
    cached_fetch_features_geojson (sample_remote 10 1000) 0
      (sample_args (Some (mkBBox (-74) 42 (-73) 43)) 5 1000) empty_world
      = (Return v, w1)
    /\ cached_fetch_features_geojson (sample_remote 10 1000) 299
         (sample_args (Some (mkBBox (-74) 42 (-73) 43)) 5 1000) w1
       = (Return v, w1)
    /\ List.length (filter (@is_count_query Z) (exchanges w1)) = 1%nat.
Proof.
  eexists _, _. split; [vm_compute; reflexivity|]. split; [|reflexivity].
  apply (@second_call_is_served_from_cache Z (sample_remote 10 1000) 0 299
           (sample_args (Some (mkBBox (-74) 42 (-73) 43)) 5 1000)
           (sample_args (Some (mkBBox (-74) 42 (-73) 43)) 5 1000)
           empty_world);
    [reflexivity|vm_compute; reflexivity|reflexivity|unfold ttl; lia].
Defined.

(** C4, on a server that answers the third request of its life, here the
    second page, with status 500: the first page's 1000 features are
    dropped, the error is raised and the cache stays empty. *)
Lemma failed_fetch_raises_and_is_not_cached_witness :
  exists w',
    cached_fetch_features_geojson (flaky_remote 10000 1000 2) 0
      (sample_args None 2500 1000) empty_world
      = (Raise (HTTPError 500), w')
    /\ List.length (exchanges w') = 3%nat
    /\ cache w' = [].
Proof.
  eexists. split; [vm_compute; reflexivity|]. split; [reflexivity|].
  apply (@failed_fetch_raises_and_is_not_cached Z (flaky_remote 10000 1000 2) 0
           (sample_args None 2500 1000) empty_world _
           (Raise (HTTPError 500))
           [(count_request (sample_args None 2500 1000),
             Json (mkBody (Some 10000%Z) None));
            (page_request (sample_args None 2500 1000) 2500 0,
             Json (mkBody None (Some (numbered 0 1000))))]
           []
           (page_request (sample_args None 2500 1000) 2500 1, StatusError 500)
           (HTTPError 500));
    vm_compute; reflexivity.
Defined.

End Caching.

(* ================================================================== *)
(** ** The guards of [main] *)

Module ViewportGate.

Section Gate.

Variable Feature : Type.
Variable remote : Remote Feature.

(** C7: for every zoom level, minimum zoom and optional box, [main] stops
    with the zoom-in notice (the spec's TooFarZoomedOut) whenever
    [current_zoom < min_zoom]; otherwise it stops with the large-view warning
    (ViewportTooLarge) whenever a box is present and its
    [approx_area_deg2()] exceeds 2.0; otherwise it goes on to the cached
    fetch.  In the two stopping cases the world is handed back as it was,
    whatever the remote service and the cache hold: both checks are decided
    before any cache lookup or request. *)
Theorem guards_run_before_fetch
    (now current_zoom min_zoom : Z) (bbox : option BBox)
    (layer_url where_ out_fields : string) (max_features : Z)
    (w : World Feature) :
  let run := main_load remote now current_zoom min_zoom bbox layer_url where_
               out_fields max_features w in
  ((current_zoom < min_zoom)%Z -> run = (ZoomInToLoad Feature, w))
  /\ (~ (current_zoom < min_zoom)%Z ->
      forall b, bbox = Some b -> PyFloat.gt (approx_area_deg2 b) 2%float = true ->
      run = (ViewVeryLarge Feature, w))
  /\ (~ (current_zoom < min_zoom)%Z ->
      (bbox = None
       \/ exists b, bbox = Some b
                    /\ PyFloat.gt (approx_area_deg2 b) 2%float = false) ->
      run = report (cached_fetch_features_geojson remote now
                      (mkArgs layer_url where_ out_fields bbox max_features 1000) w)).
Proof.
  cbv zeta. unfold main_load. repeat split.
  - intros H. apply Z.ltb_lt in H. now rewrite H.
  - intros H b -> A. apply Z.ltb_nlt in H. now rewrite H, A.
  - intros H B. apply Z.ltb_nlt in H. rewrite H.
    destruct B as [->|(b & -> & A)]; [reflexivity|now rewrite A].
Qed.

End Gate.

(** C7 at the spec's two examples and at a view that passes: zoom 10 under
    a minimum of 13 with no box; zoom 15 with a box of area 5.0; zoom 15 with
    a box of area 0.25, where the fetch runs. *)
Lemma guards_run_before_fetch_witness :
  main_load (sample_remote 10 1000) 0 10 13 None
    "https://example.org/FeatureServer/0" "1=1" "SBL" 2000 empty_world
    = (ZoomInToLoad Z, empty_world)
  /\ main_load (sample_remote 10 1000) 0 15 13 (Some (mkBBox (-75) 40 (-73) 42.5))
       "https://example.org/FeatureServer/0" "1=1" "SBL" 2000 empty_world
     = (ViewVeryLarge Z, empty_world)
  /\ fst (main_load (sample_remote 10 1000) 0 15 13 (Some (mkBBox (-74) 42 (-73.5) 42.5))
            "https://example.org/FeatureServer/0" "1=1" "SBL" 2000 empty_world)
     = Loaded (mkFeatureCollection "FeatureCollection" (numbered 0 10)).
Proof.
  split; [|split].
  - apply (@guards_run_before_fetch Z (sample_remote 10 1000) 0 10 13 None
             "https://example.org/FeatureServer/0" "1=1" "SBL" 2000 empty_world).
    lia.
  - apply (@guards_run_before_fetch Z (sample_remote 10 1000) 0 15 13
             (Some (mkBBox (-75) 40 (-73) 42.5))
             "https://example.org/FeatureServer/0" "1=1" "SBL" 2000 empty_world)
      with (b := mkBBox (-75) 40 (-73) 42.5); [lia|reflexivity|reflexivity].
  - vm_compute. reflexivity.
Defined.

End ViewportGate.

(* ================================================================== *)
(** ** More on boxes: fixed points and orientation *)

Module BBoxMore.
Import PyFloat PyFloatFacts BBoxFacts.

Lemma SFltb_asym x y : SFltb x y = true -> SFltb y x = false.
Proof. SFOrder.sf_split x; SFOrder.sf_split y; SFOrder.sf_cmp. Qed.

Lemma lt_asym x y : lt x y = true -> lt y x = false.
Proof. unfold lt. rewrite !ltb_spec. apply SFltb_asym. Qed.

(** Sorting a sorted pair leaves it alone, NaN or not. *)
Lemma sorted2_fixed a b :
  sorted2 (fst (sorted2 a b)) (snd (sorted2 a b)) = sorted2 a b.
Proof.
  unfold sorted2. destruct (lt b a) eqn:E; cbn [fst snd].
  - now rewrite (lt_asym E).
  - now rewrite E.
Qed.

(** X1: [normalized] is idempotent on every box, NaN coordinates included:
    normalising a second time changes nothing. *)
Theorem normalized_idempotent (b : BBox) :
  normalized (normalized b) = normalized b.
Proof.
  rewrite (normalized_coordinates (normalized b)).
  rewrite (normalized_coordinates b). cbn [west south east north].
  now rewrite !sorted2_fixed.
Qed.

(** A clamped coordinate is the coordinate itself, or one of the bounds. *)
Lemma clamp1_fixed lo hi x :
  clamp1 lo hi lo = lo -> clamp1 lo hi hi = hi ->
  clamp1 lo hi (clamp1 lo hi x) = clamp1 lo hi x.
Proof.
  intros Hlo Hhi.
  assert (C : clamp1 lo hi x = x /\ lt x hi = true /\ lt lo x = true
              \/ clamp1 lo hi x = lo \/ clamp1 lo hi x = hi).
  { unfold clamp1, py_max, py_min, gt.
    destruct (lt x hi) eqn:E1.
    - destruct (lt lo x) eqn:E2; auto.
    - destruct (lt lo hi); auto. }
  destruct C as [(E & H1 & H2)|[E|E]]; rewrite E; auto.
Qed.

(** X2: [clamp] is idempotent on every box: a clamped box is within range, and
    clamping it again returns it unchanged. *)
Theorem clamp_idempotent (b : BBox) :
  clamp (clamp b) = clamp b /\ in_range (clamp b) = true.
Proof.
  split; [|apply clamp_in_range].
  rewrite (clamp_coordinates (clamp b)), (clamp_coordinates b).
  cbn [west south east north].
  now rewrite !clamp1_fixed by reflexivity.
Qed.

Lemma swap_same_sorted a b :
  is_number a = true -> is_number b = true ->
  sorted2 a b = sorted2 b a
  \/ (eq a b = true /\ sorted2 a b = (a, b) /\ sorted2 b a = (b, a)).
Proof.
  intros Ha Hb. unfold sorted2.
  destruct (lt b a) eqn:E1.
  - rewrite (lt_asym E1). now left.
  - destruct (lt a b) eqn:E2; [now left|].
    right. repeat split. apply le_antisym; now apply le_total.
Qed.

Lemma numeric_swap_we b :
  numeric b = true -> numeric (mkBBox (east b) (south b) (west b) (north b)) = true.
Proof.
  intros H. apply numeric_inv in H. destruct H as (H1 & H2 & H3 & H4).
  unfold numeric. cbn [west south east north]. now rewrite H1, H2, H3, H4.
Qed.

(** X3: the area does not depend on which corner is named first: for a box
    of numbers (no NaN), exchanging west with east, or south with north,
    leaves [approx_area_deg2] unchanged. *)
Theorem approx_area_deg2_symmetric (b : BBox) :
  numeric b = true ->
  approx_area_deg2 (mkBBox (east b) (south b) (west b) (north b))
    = approx_area_deg2 b
  /\ approx_area_deg2 (mkBBox (west b) (north b) (east b) (south b))
    = approx_area_deg2 b.
Proof.
  intros H. apply numeric_inv in H. destruct H as (Hw & Hs & He & Hn).
  split.
  - destruct (swap_same_sorted Hw He) as [S|(E & _ & _)].
    + unfold approx_area_deg2. f_equal.
      rewrite !normalized_coordinates. cbn [west south east north].
      now rewrite S.
    + rewrite (@area_of_degenerate_view b).
      * apply area_of_degenerate_view.
        apply degenerate_clamp, degenerate_normalized.
        unfold degenerate. cbn [west east]. apply eq_sym in E. now rewrite E.
      * apply degenerate_clamp, degenerate_normalized.
        unfold degenerate. now rewrite E.
  - destruct (swap_same_sorted Hs Hn) as [S|(E & _ & _)].
    + unfold approx_area_deg2. f_equal.
      rewrite !normalized_coordinates. cbn [west south east north].
      now rewrite S.
    + rewrite (@area_of_degenerate_view b).
      * apply area_of_degenerate_view.
        apply degenerate_clamp, degenerate_normalized.
        unfold degenerate. cbn [south north]. apply eq_sym in E.
        rewrite E. apply orb_true_r.
      * apply degenerate_clamp, degenerate_normalized.
        unfold degenerate. rewrite E. apply orb_true_r.
Qed.

Lemma approx_area_deg2_symmetric_witness :
  approx_area_deg2 (mkBBox (-73) 42 (-74.5) 43) = 1.5%float
  /\ approx_area_deg2 (mkBBox (-74.5) 42 (-73) 43) = 1.5%float.
Proof.
  split; [|reflexivity].
  transitivity (approx_area_deg2 (mkBBox (-74.5) 42 (-73) 43)); [|reflexivity].
  apply (approx_area_deg2_symmetric (mkBBox (-74.5) 42 (-73) 43)). reflexivity.
Defined.

End BBoxMore.

(* ================================================================== *)
(** ** More on the paginated fetch: the page plan, errors, termination *)

Module FetchMore.
Import FetchFacts FetchRun.

Section Plan.

Variable Feature : Type.
Variable remote : Remote Feature.

Lemma firstn_seq_min n : forall start len,
  firstn n (seq start len) = seq start (Nat.min n len).
Proof.
  induction n as [|n IH]; intros start [|len]; cbn; auto.
  now rewrite IH.
Qed.

Lemma firstn_range n pages :
  firstn n (PyInt.range pages) = map Z.of_nat (seq 0 (Nat.min n (Z.to_nat pages))).
Proof. unfold PyInt.range. now rewrite firstn_map, firstn_seq_min. Qed.

(** The requests of one run of the body: the count request, then page
    requests for the indices 0, 1, 2, ... in this order. *)
Lemma fetch_requests a (w : World Feature) r w' :
  fetch_features_geojson remote a w = (r, w') ->
  exists pages (n : nat),
    exchanges w' =
      exchanges w ++ (count_request a, remote (exchanges w) (count_request a)) :: pages
    /\ map fst pages =
         map (fun i => page_request a
                         (Z.min (count_of_reply (remote (exchanges w) (count_request a)))
                                (max_features a))
                         (Z.of_nat i))
             (seq 0 n)
    /\ (failure (remote (exchanges w) (count_request a)) <> None -> n = 0%nat).
Proof.
  rewrite fetch_run. cbv zeta.
  destruct (remote (exchanges w) (count_request a)) as [reason|status|body] eqn:R.
  - intros H; inversion H; subst. exists [], 0%nat. repeat split; auto.
  - intros H; inversion H; subst. exists [], 0%nat. repeat split; auto.
  - cbn [count_of_reply failure].
    destruct (count_of body <=? 0)%Z.
    { intros H; inversion H; subst. exists [], 0%nat. repeat split; auto. }
    rewrite py_min_is_min.
    destruct (PyInt.true_div _ _) as [e|q].
    { intros H; inversion H; subst. exists [], 0%nat. repeat split; auto. }
    destruct (PyInt.ceil q) as [e|k].
    { intros H; inversion H; subst. exists [], 0%nat. repeat split; auto. }
    destruct (page_loop _ _ _ _ _ _) as [r0 w2] eqn:P.
    apply page_loop_trace in P. destruct P as (new & E1 & E2 & E3 & _).
    cbn [exchanges] in E1. rewrite <- app_assoc in E1. cbn [app] in E1.
    rewrite firstn_range, map_map in E3.
    intros H. exists new, (Nat.min (List.length new) (Z.to_nat k)).
    destruct r0; inversion H; subst; repeat split; auto; congruence.
Qed.

(** X4: the requests of every run of the body follow the page plan.  The
    first is the count request; the page requests that follow, however many
    are sent, are those of the indices 0, 1, 2, ... in this order: page [i]
    asks for [resultOffset = i * page_size] and
    [resultRecordCount = min(page_size, target - i * page_size)], with
    [target = min(total, max_features)], and every one carries the same query
    url, filter, field list and geometry.  No page is requested when the
    count request fails. *)
Theorem fetch_follows_page_plan
    (a : Args) (w w' : World Feature) (r : Result (FeatureCollection Feature)) :
  fetch_features_geojson remote a w = (r, w') ->
  let url := (layer_url a ++ "/query")%string in
  let reply := remote (exchanges w) (CountQuery url (where_ a) (geometry_of (bbox a))) in
  let target := Z.min (count_of_reply reply) (max_features a) in
  exists pages (n : nat),
    exchanges w' =
      exchanges w ++ (CountQuery url (where_ a) (geometry_of (bbox a)), reply) :: pages
    /\ map fst pages =
         map (fun i =>
                FeatureQuery url (where_ a) (out_fields a) (geometry_of (bbox a))
                  (Z.min (page_size a) (target - Z.of_nat i * page_size a))
                  (Z.of_nat i * page_size a))
             (seq 0 n)
    /\ (failure reply <> None -> n = 0%nat).
Proof.
  intros H. cbv zeta. apply fetch_requests in H.
  destruct H as (pages & n & E1 & E2 & E3). exists pages, n.
  split; [exact E1|]. split; [|exact E3].
  rewrite E2. apply map_ext. intros i. unfold page_request.
  now rewrite py_min_is_min.
Qed.




(** X7: [page_size = 0] with a positive count, whatever the cap: the
    division [target / page_size] raises ZeroDivisionError once the count
    request has been answered; no page is requested and nothing is
    returned. *)
Theorem zero_page_size_raises
    (a : Args) (w : World Feature) (body : Body Feature) :
  page_size a = 0%Z ->
  remote (exchanges w) (count_request a) = Json body ->
  (0 < count_of body)%Z ->
  fetch_features_geojson remote a w
  = (Raise ZeroDivisionError,
     mkWorld (exchanges w ++ [(count_request a, Json body)]) (cache w)).
Proof.
  intros Hp R L. rewrite fetch_run, R. cbv beta iota zeta.
  apply Z.leb_gt in L. rewrite L, Hp. reflexivity.
Qed.

End Plan.


Lemma fetch_follows_page_plan_witness :
  exists pages,
    exchanges (snd (fetch_features_geojson (sample_remote 10 1000)
                      (sample_args None 7 3) empty_world))
    = (count_request (sample_args None 7 3), Json (mkBody (Some 10%Z) None)) :: pages
    /\ map fst pages =
         [FeatureQuery "https://example.org/FeatureServer/0/query"
            "COUNTY_NAME = 'Schenectady'" "PARCEL_ADDR,SBL" None 3 0;
          FeatureQuery "https://example.org/FeatureServer/0/query"
            "COUNTY_NAME = 'Schenectady'" "PARCEL_ADDR,SBL" None 3 3;
          FeatureQuery "https://example.org/FeatureServer/0/query"
            "COUNTY_NAME = 'Schenectady'" "PARCEL_ADDR,SBL" None 1 6].
Proof.
  destruct (@fetch_follows_page_plan Z (sample_remote 10 1000)
              (sample_args None 7 3) empty_world _ _ eq_refl)
    as (pages & n & E1 & E2 & _).
  exists pages. split; [exact E1|].
  vm_compute in E1. injection E1 as <-. reflexivity.
Defined.


Lemma zero_page_size_raises_witness :
  fetch_features_geojson (sample_remote 10 1000) (sample_args None 4 0)
    empty_world
  = (Raise ZeroDivisionError,
     mkWorld [(count_request (sample_args None 4 0), Json (mkBody (Some 10%Z) None))] []).
Proof.
  apply (@zero_page_size_raises Z (sample_remote 10 1000)
           (sample_args None 4 0) empty_world (mkBody (Some 10%Z) None));
    [reflexivity|reflexivity|vm_compute; reflexivity].
Defined.

End FetchMore.

(* ================================================================== *)
(** ** More on the cache: expiry, separation of keys, what is stored *)

Module CachingMore.
Import FetchFacts FetchRun Caching.

Section Cache.

Variable Feature : Type.
Variable remote : Remote Feature.

Lemma cache_lookup_stale now now' a (v : FeatureCollection Feature) entries :
  (now + ttl <= now')%Z ->
  cache_lookup now' a (mkCacheEntry a v now :: entries) = None.
Proof.
  intros H. unfold cache_lookup. cbn [find entry_key].
  rewrite same_args_refl. cbn [entry_time entry_value].
  destruct (Z.ltb_spec now' (now + ttl)); [lia|reflexivity].
Qed.

Lemma cache_lookup_other now a' (e : CacheEntry Feature) entries :
  same_args (entry_key e) a' = false ->
  cache_lookup now a' (e :: entries) = cache_lookup now a' entries.
Proof. intros H. unfold cache_lookup. cbn [find]. now rewrite H. Qed.

(** X8: an entry lives for less than 300 seconds.  When a call ran the body
    and stored its value at time [now1], a call with the same arguments at
    [now2 >= now1 + 300] does not use it: the body runs again, starting with
    a new count request; and when it returns a value, that value is the one
    served for the next 300 seconds. *)
Theorem stale_entry_is_refetched
    (now1 now2 : Z) (a : Args) (w w1 : World Feature)
    (v : FeatureCollection Feature) :
  cache_lookup now1 a (cache w) = None ->
  cached_fetch_features_geojson remote now1 a w = (Return v, w1) ->
  (now1 + ttl <= now2)%Z ->
  exists r2 w2 pages,
    cached_fetch_features_geojson remote now2 a w1 = (r2, w2)
    /\ exchanges w2 =
         exchanges w1 ++
         (count_request a, remote (exchanges w1) (count_request a)) :: pages
    /\ forall v2 now3, r2 = Return v2 -> (now2 <= now3 < now2 + ttl)%Z ->
         cache_lookup now3 a (cache w2) = Some v2.
Proof.
  intros Hmiss H1 Ht.
  rewrite cached_miss in H1 by exact Hmiss.
  destruct (fetch_features_geojson remote a w) as [[e|v0] w0] eqn:F;
    inversion H1; subst.
  clear H1 F.
  set (w1 := mkWorld (exchanges w0) (mkCacheEntry a v now1 :: cache w0)).
  rewrite cached_miss by (cbn [cache w1]; now apply cache_lookup_stale).
  destruct (fetch_features_geojson remote a w1) as [[e2|v2] w2] eqn:F2;
    apply fetch_trace in F2; destruct F2 as (pages & E & _);
    eexists _, _, pages; (split; [reflexivity|]); (split; [exact E|]);
    intros v3 now3 R T; inversion R; subst.
  cbn [cache]. apply cache_lookup_fresh. lia.
Qed.

(** X9: a call touches the cache under its own arguments only: whatever it
    does, the entry found for any other arguments, at any time, is the one
    that was found before the call. *)
Theorem other_keys_are_untouched
    (now t : Z) (a a' : Args) (w w' : World Feature)
    (r : Result (FeatureCollection Feature)) :
  cached_fetch_features_geojson remote now a w = (r, w') ->
  same_args a a' = false ->
  cache_lookup t a' (cache w') = cache_lookup t a' (cache w).
Proof.
  intros H D. unfold cached_fetch_features_geojson in H.
  destruct (cache_lookup now a (cache w)) as [v|].
  { inversion H; subst. reflexivity. }
  destruct (fetch_features_geojson remote a w) as [[e|v] w0] eqn:F;
    apply fetch_trace in F; destruct F as (pages & _ & C & _);
    inversion H; subst; cbn [cache]; rewrite ?C; auto.
  now rewrite cache_lookup_other.
Qed.

Lemma cache_lookup_capped now a (entries : list (CacheEntry Feature))
    (v : FeatureCollection Feature) :
  cache_capped entries -> cache_lookup now a entries = Some v ->
  (0 <= max_features a)%Z -> (PyInt.len (features v) <= max_features a)%Z.
Proof.
  unfold cache_lookup. intros Hc H Hm.
  destruct (find _ entries) as [e|] eqn:Fd; [|discriminate].
  apply find_some in Fd. destruct Fd as [Hin Hk].
  apply same_args_eq in Hk. subst a.
  destruct (_ <? _)%Z; inversion H; subst.
  unfold cache_capped in Hc. rewrite Forall_forall in Hc. auto.
Qed.

Lemma fetch_capped a (w w' : World Feature) fc :
  fetch_features_geojson remote a w = (Return fc, w') ->
  (0 <= max_features a)%Z -> (PyInt.len (features fc) <= max_features a)%Z.
Proof.
  intros H Hm. apply fetch_trace in H.
  destruct H as (pages & _ & _ & body & _ & _ & _ & Hf & _ & Hnil).
  rewrite Hf. destruct (Z.le_gt_cases (count_of body) 0) as [L|L].
  - rewrite (Hnil L). unfold fetched. cbn [map List.concat].
    rewrite slice_to_nil. unfold PyInt.len. cbn [List.length Z.of_nat].
    assumption.
  - etransitivity; [apply slice_to_bound; lia|]. apply Z.le_min_r.
Qed.

(** X10: the cap holds through the cache.  If every stored value has at most
    as many features as the cap of the call that stored it (as in the empty
    cache), then after any call this is still so, and the collection the
    call returns, fetched or served from the cache, has at most
    [max_features] features when [max_features >= 0]. *)
Theorem cached_results_are_capped
    (now : Z) (a : Args) (w w' : World Feature)
    (r : Result (FeatureCollection Feature)) :
  cache_capped (cache w) ->
  cached_fetch_features_geojson remote now a w = (r, w') ->
  cache_capped (cache w')
  /\ forall fc, r = Return fc -> (0 <= max_features a)%Z ->
       (PyInt.len (features fc) <= max_features a)%Z.
Proof.
  intros Hc H. unfold cached_fetch_features_geojson in H.
  destruct (cache_lookup now a (cache w)) as [v|] eqn:L.
  { inversion H; subst. split; [assumption|].
    intros fc E Hm. inversion E; subst.
    eapply cache_lookup_capped; eauto. }
  destruct (fetch_features_geojson remote a w) as [[e|v] w0] eqn:F;
    pose proof F as T; apply fetch_trace in T; destruct T as (pages & _ & C & _);
    inversion H; subst; cbn [cache]; rewrite ?C.
  - split; [assumption|]. intros fc E. discriminate.
  - split.
    + constructor; [|assumption]. cbn [entry_key entry_value].
      intros Hm. eapply fetch_capped; eauto.
    + intros fc E Hm. inversion E; subst. eapply fetch_capped; eauto.
Qed.

End Cache.

Lemma stale_entry_is_refetched_witness :
  exists w1 w2,
    cached_fetch_features_geojson (sample_remote 10 1000) 0
      (sample_args None 4 3) empty_world
    = (Return (mkFeatureCollection "FeatureCollection" (numbered 0 4)), w1)
    /\ cached_fetch_features_geojson (sample_remote 10 1000) 300
         (sample_args None 4 3) w1
       = (Return (mkFeatureCollection "FeatureCollection" (numbered 0 4)), w2)
    /\ List.length (exchanges w1) = 3%nat
    /\ List.length (exchanges w2) = 6%nat.
Proof.
  destruct (@stale_entry_is_refetched Z (sample_remote 10 1000) 0 300
              (sample_args None 4 3) empty_world _ _ eq_refl eq_refl)
    as (r2 & w2 & pages & E & _); [unfold ttl; lia|].
  eexists _, w2. split; [reflexivity|].
  vm_compute in E. injection E as <- <-.
  repeat split.
Defined.

Lemma other_keys_are_untouched_witness :
  cache_lookup 10 (sample_args None 5 3)
    (cache (snd (cached_fetch_features_geojson (sample_remote 10 1000) 5
                   (sample_args None 4 3)
                   (snd (cached_fetch_features_geojson (sample_remote 10 1000) 0
                           (sample_args None 5 3) empty_world)))))
  = cache_lookup 10 (sample_args None 5 3)
      (cache (snd (cached_fetch_features_geojson (sample_remote 10 1000) 0
                     (sample_args None 5 3) empty_world)))
  /\ cache_lookup 10 (sample_args None 5 3)
       (cache (snd (cached_fetch_features_geojson (sample_remote 10 1000) 0
                      (sample_args None 5 3) empty_world)))
     = Some (mkFeatureCollection "FeatureCollection" (numbered 0 5)).
Proof.
  split; [|vm_compute; reflexivity].
  apply (@other_keys_are_untouched Z (sample_remote 10 1000) 5 10
           (sample_args None 4 3) (sample_args None 5 3)
           (snd (cached_fetch_features_geojson (sample_remote 10 1000) 0
                   (sample_args None 5 3) empty_world))
           (snd (cached_fetch_features_geojson (sample_remote 10 1000) 5
                   (sample_args None 4 3)
                   (snd (cached_fetch_features_geojson (sample_remote 10 1000) 0
                           (sample_args None 5 3) empty_world))))
           (fst (cached_fetch_features_geojson (sample_remote 10 1000) 5
                   (sample_args None 4 3)
                   (snd (cached_fetch_features_geojson (sample_remote 10 1000) 0
                           (sample_args None 5 3) empty_world)))));
    vm_compute; reflexivity.
Defined.

Lemma cached_results_are_capped_witness :
  cache_capped
    (cache (snd (cached_fetch_features_geojson (sample_remote_ignoring_count 10 8) 0
                   (sample_args None 4 3) empty_world)))
  /\ (PyInt.len (numbered 0 4) <= 4)%Z.
Proof.
  destruct (@cached_results_are_capped Z (sample_remote_ignoring_count 10 8) 0
              (sample_args None 4 3) empty_world _ _
              (Forall_nil _) eq_refl) as [C B].
  split; [exact C|].
  apply (B (mkFeatureCollection "FeatureCollection" (numbered 0 4)));
    [vm_compute; reflexivity|vm_compute; congruence].
Defined.

End CachingMore.

(* ================================================================== *)
(** ** More on [main]: what a run can end in *)

Module MainMore.
Import FetchFacts FetchRun Caching.

Section Main.

Variable Feature : Type.
Variable remote : Remote Feature.



End Main.


End MainMore.

(* ================================================================== *)
(** ** The field list *)

Module FieldList.
Import Ascii Sorted PyStr.

Lemma ascii_compare_refl c : Ascii.compare c c = Eq.
Proof. unfold Ascii.compare. apply N.compare_refl. Qed.

Lemma ascii_compare_trans a b c :
  Ascii.compare a b = Lt -> Ascii.compare b c = Lt -> Ascii.compare a c = Lt.
Proof.
  unfold Ascii.compare. rewrite !N.compare_lt_iff. apply N.lt_trans.
Qed.

Lemma compare_refl s : String.compare s s = Eq.
Proof.
  induction s as [|c s IH]; cbn; [reflexivity|].
  now rewrite ascii_compare_refl.
Qed.

Lemma compare_trans a : forall b c,
  String.compare a b = Lt -> String.compare b c = Lt -> String.compare a c = Lt.
Proof.
  induction a as [|x a IH]; intros [|y b] [|z c]; cbn; try congruence.
  destruct (Ascii.compare x y) eqn:Exy; try discriminate;
    destruct (Ascii.compare y z) eqn:Eyz; try discriminate; intros H1 H2.
  - apply Ascii.compare_eq_iff in Exy, Eyz. subst.
    rewrite ascii_compare_refl. eauto.
  - apply Ascii.compare_eq_iff in Exy. subst. now rewrite Eyz.
  - apply Ascii.compare_eq_iff in Eyz. subst. now rewrite Exy.
  - now rewrite (ascii_compare_trans _ _ _ Exy Eyz).
Qed.

Lemma compare_gt_lt a b : String.compare a b = Gt -> String.compare b a = Lt.
Proof. rewrite String.compare_antisym. now destruct (String.compare b a). Qed.

Lemma insert_In x l z : In z (insert x l) <-> z = x \/ In z l.
Proof.
  induction l as [|y l IH]; cbn [insert In].
  - split; intros [H|H]; subst; auto.
  - destruct (String.compare x y) eqn:E; cbn [In].
    + apply String.compare_eq_iff in E. subst.
      split; [intros H|intros [H|H]]; subst; cbn; auto.
    + split; intros [H|H]; subst; auto.
    + rewrite IH. split; [intros [H|[H|H]]|intros [H|[H|H]]]; subst; auto.
Qed.

Lemma insert_increasing x l : increasing l -> increasing (insert x l).
Proof.
  unfold increasing. induction l as [|y l IH]; cbn; intros H.
  - repeat constructor.
  - inversion H as [|? ? Hl Hy]; subst.
    destruct (String.compare x y) eqn:E.
    + assumption.
    + constructor; [assumption|]. constructor; [assumption|].
      eapply Forall_impl; [|exact Hy]. intros z Hz. cbn in Hz.
      eapply compare_trans; eauto.
    + constructor; [auto|]. apply Forall_forall. intros z Hz.
      apply insert_In in Hz. destruct Hz as [->|Hz].
      * now apply compare_gt_lt.
      * rewrite Forall_forall in Hy. auto.
Qed.

Lemma sorted_set_In l z : In z (sorted_set l) <-> In z l.
Proof.
  induction l as [|x l IH]; cbn; [tauto|].
  rewrite insert_In, IH. split; intros [H|H]; subst; auto.
Qed.

Lemma sorted_set_increasing l : increasing (sorted_set l).
Proof.
  induction l as [|x l IH]; cbn; [constructor|]. now apply insert_increasing.
Qed.

(** An increasing list is determined by its elements. *)
Lemma increasing_unique l1 : forall l2,
  increasing l1 -> increasing l2 -> (forall z, In z l1 <-> In z l2) -> l1 = l2.
Proof.
  unfold increasing.
  induction l1 as [|x l1 IH]; intros [|y l2] H1 H2 S.
  - reflexivity.
  - exfalso. apply (S y). now left.
  - exfalso. apply (S x). now left.
  - inversion H1 as [|? ? Hl1 Hx]; inversion H2 as [|? ? Hl2 Hy]; subst.
    rewrite Forall_forall in Hx, Hy.
    assert (x = y).
    { destruct (proj1 (S x) (or_introl eq_refl)) as [E|I]; [congruence|].
      destruct (proj2 (S y) (or_introl eq_refl)) as [E|I']; [congruence|].
      pose proof (compare_trans _ _ _ (Hx _ I') (Hy _ I)) as C.
      rewrite compare_refl in C. discriminate. }
    subst y. f_equal. apply IH; auto. intros z. split; intros I.
    + destruct (proj1 (S z) (or_intror I)) as [E|I']; [|assumption].
      subst z. pose proof (Hx _ I) as C. rewrite compare_refl in C. discriminate.
    + destruct (proj2 (S z) (or_intror I)) as [E|I']; [|assumption].
      subst z. pose proof (Hy _ I) as C. rewrite compare_refl in C. discriminate.
Qed.

(** X12: the field list that is sent is canonical.  The fields joined into
    [outFields] are strictly increasing (so none occurs twice), they are
    exactly the selected popup fields together with PARCEL_ADDR,
    PRIMARY_OWNER, SBL and PRINT_KEY, and the string depends only on which
    fields are selected, not on their order or on repetitions. *)
Theorem out_fields_is_canonical (popup_fields : list string) :
  increasing (sorted_set (popup_fields ++ required_fields))
  /\ (forall f, In f (sorted_set (popup_fields ++ required_fields))
                <-> In f popup_fields \/ In f required_fields)
  /\ forall other,
       (forall f, In f popup_fields <-> In f other) ->
       out_fields_of other = out_fields_of popup_fields.
Proof.
  split; [apply sorted_set_increasing|]. split.
  - intros f. now rewrite sorted_set_In, in_app_iff.
  - intros other S. unfold out_fields_of. f_equal.
    apply increasing_unique; try apply sorted_set_increasing.
    intros z. rewrite !sorted_set_In, !in_app_iff, S. tauto.
Qed.

Lemma out_fields_is_canonical_witness :
  out_fields_of ["SBL"; "MAIL_CITY"; "SBL"; "ACRES"]%string
  = "ACRES,MAIL_CITY,PARCEL_ADDR,PRIMARY_OWNER,PRINT_KEY,SBL"%string
  /\ out_fields_of ["SBL"; "MAIL_CITY"; "SBL"; "ACRES"]%string
     = out_fields_of ["ACRES"; "SBL"; "MAIL_CITY"]%string.
Proof.
  split; [reflexivity|].
  apply (out_fields_is_canonical ["ACRES"; "SBL"; "MAIL_CITY"]%string).
  intros f. cbn. tauto.
Defined.

End FieldList.

(* ================================================================== *)
(** ** The WHERE clause *)

Module WhereClause.
Import Ascii PyStr.


(** In front of text that does not begin with a quote, the escaped string is
    read as the string itself. *)
Lemma read_escaped_then s : forall t,
  starts_with_quote t = false ->
  read_sql_literal (escape_quotes s ++ t)
  = match read_sql_literal t with
    | Some (text, rest) => Some ((s ++ text)%string, rest)
    | None => None
    end.
Proof.
  induction s as [|c s IH]; intros t H.
  - cbn. destruct (read_sql_literal t) as [[text rest]|]; reflexivity.
  - cbn [escape_quotes]. destruct (Ascii.eqb c quote) eqn:E.
    + apply Ascii.eqb_eq in E. subst c.
      change (read_sql_literal
                (String quote (String quote (escape_quotes s ++ t)))
              = match read_sql_literal t with
                | Some (text, rest) => Some (String quote (s ++ text), rest)
                | None => None
                end).
      cbn [read_sql_literal]. rewrite Ascii.eqb_refl, (IH t H).
      destruct (read_sql_literal t) as [[text rest]|]; reflexivity.
    + change (read_sql_literal (String c (escape_quotes s ++ t))
              = match read_sql_literal t with
                | Some (text, rest) => Some (String c (s ++ text), rest)
                | None => None
                end).
      cbn [read_sql_literal]. rewrite E, (IH t H).
      destruct (read_sql_literal t) as [[text rest]|]; reflexivity.
Qed.

Lemma append_assoc (a b c : string) : ((a ++ b) ++ c = a ++ (b ++ c))%string.
Proof. induction a as [|x a IH]; cbn; [reflexivity|now rewrite IH]. Qed.

Section Where.

Variable upper : string -> string.



(** A LIKE pattern, closed: SQL reads [%], the text, [%]. *)
Lemma like_pattern_reads_back (s rest : string) :
  starts_with_quote rest = false ->
  read_sql_literal ("%" ++ escape_quotes s ++ "%'" ++ rest)
  = Some (("%" ++ s ++ "%")%string, rest).
Proof.
  intros R.
  change (read_sql_literal (String "%"%char (escape_quotes s ++ "%'" ++ rest))
          = Some (String "%"%char (s ++ "%"), rest)).
  cbn [read_sql_literal]. unfold quote at 1. cbn [Ascii.eqb Bool.eqb].
  rewrite read_escaped_then by reflexivity.
  change (read_sql_literal ("%'" ++ rest))
    with (read_sql_literal (String "%"%char (String quote rest))).
  cbn [read_sql_literal]. rewrite Ascii.eqb_refl. unfold quote at 1. cbn [Ascii.eqb Bool.eqb].
  destruct rest as [|c rest']; [reflexivity|].
  cbn in R. rewrite R. reflexivity.
Qed.

(** X14: the two LIKE patterns stay within their quotes as well, as long as
    upper-casing and quote doubling commute (as they do for [str.upper],
    which maps the characters one by one and leaves the quote alone).  When
    an owner search is given, the clause contains
    [UPPER(PRIMARY_OWNER) LIKE '] and what SQL reads as the literal opened
    there is [%], the upper-cased search text, [%], followed by nothing or by
    [ AND ]; when an address search is given, the literal after
    [UPPER(PARCEL_ADDR) LIKE '] reads as [%], the upper-cased text, [%], and
    ends the clause. *)
Theorem like_literals_read_back (county_name owner_search addr_search : string) :
  (forall s, upper (escape_quotes s) = escape_quotes (upper s)) ->
  (truthy owner_search = true ->
   exists head body tail,
     build_where upper county_name owner_search addr_search
     = (head ++ "UPPER(PRIMARY_OWNER) LIKE '" ++ body)%string
     /\ read_sql_literal body = Some (("%" ++ upper owner_search ++ "%")%string, tail)
     /\ (tail = EmptyString \/ exists t, tail = (" AND " ++ t)%string))
  /\ (truthy addr_search = true ->
      exists head body,
        build_where upper county_name owner_search addr_search
        = (head ++ "UPPER(PARCEL_ADDR) LIKE '" ++ body)%string
        /\ read_sql_literal body
           = Some (("%" ++ upper addr_search ++ "%")%string, EmptyString)).
Proof.
  intros U. split; intros T; unfold build_where, join; rewrite T, !U.
  - destruct (truthy addr_search); cbn [app String.concat].
    + exists ("COUNTY_NAME = '" ++ escape_quotes county_name ++ "' AND ")%string.
      eexists _, _. split.
      * rewrite ?append_assoc. cbn [String.append]. reflexivity.
      * split; [apply like_pattern_reads_back; reflexivity|].
        right. eexists. reflexivity.
    + exists ("COUNTY_NAME = '" ++ escape_quotes county_name ++ "' AND ")%string.
      eexists _, _. split.
      * rewrite ?append_assoc. cbn [String.append]. reflexivity.
      * split; [apply like_pattern_reads_back; reflexivity|]. now left.
  - destruct (truthy owner_search); cbn [app String.concat].
    + exists ("COUNTY_NAME = '" ++ escape_quotes county_name
              ++ "' AND UPPER(PRIMARY_OWNER) LIKE '%"
              ++ escape_quotes (upper owner_search) ++ "%' AND ")%string.
      eexists. split.
      * rewrite ?append_assoc. cbn [String.append]. rewrite ?append_assoc.
        cbn [String.append]. reflexivity.
      * apply like_pattern_reads_back. reflexivity.
    + exists ("COUNTY_NAME = '" ++ escape_quotes county_name ++ "' AND ")%string.
      eexists. split.
      * rewrite ?append_assoc. cbn [String.append]. reflexivity.
      * apply like_pattern_reads_back. reflexivity.
Qed.

End Where.

Lemma ascii_upper_keeps_quote c :
  Ascii.eqb (ascii_upper c) quote = Ascii.eqb c quote.
Proof. destruct c as [[] [] [] [] [] [] [] []]; reflexivity. Qed.

Lemma ascii_upper_commutes s :
  str_ascii_upper (escape_quotes s) = escape_quotes (str_ascii_upper s).
Proof.
  induction s as [|c s IH]; [reflexivity|].
  cbn [escape_quotes str_ascii_upper]. rewrite ascii_upper_keeps_quote.
  destruct (Ascii.eqb c quote) eqn:E; cbn [str_ascii_upper].
  - apply Ascii.eqb_eq in E. subst c. now rewrite IH.
  - now rewrite IH.
Qed.

Lemma like_literals_read_back_witness :
  build_where str_ascii_upper "Schenectady" "O'Brien" "Main St"
  = "COUNTY_NAME = 'Schenectady' AND UPPER(PRIMARY_OWNER) LIKE '%O''BRIEN%' AND UPPER(PARCEL_ADDR) LIKE '%MAIN ST%'"%string
  /\ exists head body,
       build_where str_ascii_upper "Schenectady" "O'Brien" "Main St"
       = (head ++ "UPPER(PARCEL_ADDR) LIKE '" ++ body)%string
       /\ read_sql_literal body = Some ("%MAIN ST%"%string, EmptyString).
Proof.
  split; [reflexivity|].
  apply (@like_literals_read_back str_ascii_upper "Schenectady" "O'Brien" "Main St"
           ascii_upper_commutes).
  reflexivity.
Defined.


End WhereClause.

(* ================================================================== *)
(** ** Reading the map state *)

Module MapStateFacts.
Import MapState.






End MapStateFacts.

(* ================================================================== *)
(** ** One run of [main]: what is sent, how it ends *)

Module RunFacts.
Import FetchFacts FetchRun Caching.

Section Run.

Variable Feature : Type.
Variable remote : Remote Feature.
Variable upper : string -> string.

(** What lines 330-354 send: nothing when a guard stops the run or the cache
    answers; otherwise the requests of one call of the body. *)
Lemma main_load_requests
    (now current_zoom min_zoom : Z) (bbox : option BBox)
    (layer_url where_ out_fields : string) (max_features : Z)
    (w w' : World Feature) (o : Outcome Feature) :
  main_load remote now current_zoom min_zoom bbox layer_url where_ out_fields
    max_features w = (o, w') ->
  exists new,
    exchanges w' = exchanges w ++ new
    /\ Forall (fun x =>
                 request_url (fst x) = (layer_url ++ "/query")%string
                 /\ request_where (fst x) = where_
                 /\ request_geometry (fst x) = geometry_of bbox) new
    /\ (new <> [] ->
        (min_zoom <= current_zoom)%Z
        /\ forall b, bbox = Some b -> PyFloat.gt (approx_area_deg2 b) 2%float = false).
Proof.
  unfold main_load.
  assert (Stop : forall o0, (o0, w) = (o, w') ->
            exists new, exchanges w' = exchanges w ++ new
              /\ Forall (fun x =>
                   request_url (fst x) = (layer_url ++ "/query")%string
                   /\ request_where (fst x) = where_
                   /\ request_geometry (fst x) = geometry_of bbox) new
              /\ (new <> [] ->
                  (min_zoom <= current_zoom)%Z
                  /\ forall b, bbox = Some b ->
                       PyFloat.gt (approx_area_deg2 b) 2%float = false)).
  { intros o0 H. inversion H; subst. exists []. rewrite app_nil_r.
    repeat split; auto; congruence. }
  destruct (Z.ltb_spec current_zoom min_zoom) as [Z|Z]; [apply Stop|].
  destruct (match bbox with Some b => _ | None => false end) eqn:G;
    [apply Stop|].
  unfold cached_fetch_features_geojson.
  set (a := mkArgs layer_url where_ out_fields bbox max_features 1000).
  destruct (cache_lookup now a (cache w)); [apply Stop|].
  destruct (fetch_features_geojson remote a w) as [r w0] eqn:F.
  apply FetchMore.fetch_requests in F.
  destruct F as (pages & n & E1 & E2 & _).
  intros H.
  assert (Ex : exchanges w' = exchanges w0).
  { destruct r as [e|v]; [destruct e|]; inversion H; subst; reflexivity. }
  rewrite Ex. eexists. split; [exact E1|]. split.
  - constructor.
    + cbn. auto.
    + apply Forall_forall. intros x Hx.
      apply (in_map fst) in Hx. rewrite E2 in Hx. apply in_map_iff in Hx.
      destruct Hx as (i & <- & _). cbn. auto.
  - intros _. split; [assumption|]. intros b ->. assumption.
Qed.


(** The cap and the cache invariant through lines 330-354. *)
Lemma main_load_capped
    (now current_zoom min_zoom : Z) (bbox : option BBox)
    (layer_url where_ out_fields : string) (cap : Z)
    (w w' : World Feature) (o : Outcome Feature) :
  cache_capped (cache w) ->
  main_load remote now current_zoom min_zoom bbox layer_url where_ out_fields
    cap w = (o, w') ->
  cache_capped (cache w')
  /\ forall geojson, o = Loaded geojson -> (0 <= cap)%Z ->
       (PyInt.len (features geojson) <= cap)%Z.
Proof.
  intros Hc. unfold main_load.
  destruct (current_zoom <? min_zoom)%Z;
    [intros H; inversion H; subst; split; [assumption|discriminate]|].
  destruct (match bbox with Some b => _ | None => false end);
    [intros H; inversion H; subst; split; [assumption|discriminate]|].
  unfold cached_fetch_features_geojson.
  set (a := mkArgs layer_url where_ out_fields bbox cap 1000).
  destruct (cache_lookup now a (cache w)) as [v|] eqn:L.
  { intros H; inversion H; subst. split; [assumption|].
    intros g E Hm. inversion E; subst.
    change cap with (max_features a) in Hm |- *.
    eapply CachingMore.cache_lookup_capped; eauto. }
  destruct (fetch_features_geojson remote a w) as [[e|v] w0] eqn:F;
    pose proof F as T; apply fetch_trace in T; destruct T as (pages & _ & C & _).
  - intros H.
    assert (E : cache w' = cache w0 /\ forall g, o <> Loaded g).
    { destruct e; inversion H; subst; split; auto; discriminate. }
    destruct E as [-> N]. rewrite C. split; [assumption|].
    intros g E. destruct (N g E).
  - intros H; inversion H; subst. cbn [cache]. rewrite C. split.
    + constructor; [|assumption]. cbn [entry_key entry_value].
      intros Hm. eapply CachingMore.fetch_capped; eauto.
    + intros g E Hm. inversion E; subst.
      change cap with (max_features a) in Hm |- *.
      eapply CachingMore.fetch_capped; eauto.
Qed.

(** X15: a run queries the chosen layer only, with the filter of the
    sidebar.  Every request a run of [main] sends goes to [<layer>/query],
    where the layer is the public centroid layer or, in polygon mode, the
    url that was typed, and carries the WHERE clause built from the three
    filter fields.  A request is sent only if, in polygon mode, a url was
    typed, and the zoom read from the map state is at least the minimum
    zoom. *)
Theorem run_queries_the_chosen_layer
    (now : Z) (ui : Sidebar) (map_state : option MapState.State)
    (w w' : World Feature) (ending : Ending Feature) :
  main_run remote upper now ui map_state w = (ending, w') ->
  exists new,
    exchanges w' = exchanges w ++ new
    /\ Forall (fun x =>
                 request_url (fst x) = (layer_url_of ui ++ "/query")%string
                 /\ request_where (fst x)
                    = build_where upper (county_name ui) (owner_search ui)
                        (addr_search ui)) new
    /\ (new <> [] ->
        (mode ui = ParcelPolygons -> url_input ui <> EmptyString)
        /\ exists z, MapState.current_zoom_of map_state = inr z
                     /\ (min_zoom ui <= z)%Z).
Proof.
  unfold main_run. cbv zeta.
  assert (Stop : forall e0, (e0, w) = (ending, w') ->
    exists new,
      exchanges w' = exchanges w ++ new
      /\ Forall (fun x =>
                   request_url (fst x) = (layer_url_of ui ++ "/query")%string
                   /\ request_where (fst x)
                      = build_where upper (county_name ui) (owner_search ui)
                          (addr_search ui)) new
      /\ (new <> [] ->
          (mode ui = ParcelPolygons -> url_input ui <> EmptyString)
          /\ exists z, MapState.current_zoom_of map_state = inr z
                       /\ (min_zoom ui <= z)%Z)).
  { intros e0 H. inversion H; subst. exists []. rewrite app_nil_r.
    repeat split; auto; congruence. }
  destruct (match mode ui with
            | CentroidPoints => false
            | ParcelPolygons => negb (PyStr.truthy (layer_url_of ui))
            end) eqn:U; [apply Stop|].
  destruct (MapState.current_zoom_of map_state) as [e|z]; [apply Stop|].
  destruct (MapState.bbox_from_folium_state map_state) as [e|bbox]; [apply Stop|].
  destruct (main_load _ _ _ _ _ _ _ _ _ _) as [o w0] eqn:L.
  apply main_load_requests in L. destruct L as (new & E & F & N).
  intros H.
  assert (Ew : w' = w0).
  { destruct o as [| | | | |g]; try (inversion H; reflexivity).
    destruct (features g); inversion H; reflexivity. }
  subst w0. exists new. split; [assumption|]. split.
  - eapply Forall_impl; [|exact F]. cbn beta. intros x (A & B & _). auto.
  - intros Hn. destruct (N Hn) as [Z _]. split; [|eauto].
    intros M. unfold layer_url_of in U. rewrite M in U.
    destruct (url_input ui); [discriminate|discriminate].
Qed.


(** X17: the data map is drawn with at least one feature and at most the
    cap.  If every stored value respects the cap of the call that stored it
    (as in the empty cache) and the cap is not negative, then a run that
    reaches the data map has between 1 and [max_features] features to draw,
    fetched or served from the cache; a run that loads no feature ends with
    the notice instead; and the stored values respect their caps after the
    run as well. *)
Theorem rendered_features_are_bounded
    (now : Z) (ui : Sidebar) (map_state : option MapState.State)
    (w w' : World Feature) (ending : Ending Feature) :
  cache_capped (cache w) ->
  (0 <= max_features_slider ui)%Z ->
  main_run remote upper now ui map_state w = (ending, w') ->
  cache_capped (cache w')
  /\ forall geojson, ending = Rendered geojson ->
       (1 <= PyInt.len (features geojson) <= max_features_slider ui)%Z.
Proof.
  intros Hc Hm. unfold main_run. cbv zeta.
  destruct (match mode ui with
            | CentroidPoints => false
            | ParcelPolygons => negb (PyStr.truthy (layer_url_of ui))
            end);
    [intros H; inversion H; subst; split; [assumption|discriminate]|].
  destruct (MapState.current_zoom_of map_state) as [e|z];
    [intros H; inversion H; subst; split; [assumption|discriminate]|].
  destruct (MapState.bbox_from_folium_state map_state) as [e|bbox];
    [intros H; inversion H; subst; split; [assumption|discriminate]|].
  destruct (main_load _ _ _ _ _ _ _ _ _ _) as [o w0] eqn:L.
  apply main_load_capped in L; [|assumption]. destruct L as [C B].
  intros H.
  destruct o as [| | | | |g];
    try (inversion H; subst; split; [assumption|discriminate]).
  destruct (features g) as [|f fs] eqn:Fs; inversion H; subst;
    (split; [assumption|]); [discriminate|].
  intros g' E. inversion E; subst g'. split; [|apply (B g eq_refl Hm)].
  rewrite Fs. unfold PyInt.len. cbn [List.length]. lia.
Qed.

(** X18: without bounds there is no spatial filter.  When the map state
    yields no box (no state yet, no bounds, or a corner missing), the
    large-view guard cannot stop the run, and every request the run sends
    goes without a geometry: the whole layer is queried under the filter. *)
Theorem no_bounds_no_spatial_filter
    (now : Z) (ui : Sidebar) (map_state : option MapState.State)
    (w w' : World Feature) (ending : Ending Feature) :
  MapState.bbox_from_folium_state map_state = inr None ->
  main_run remote upper now ui map_state w = (ending, w') ->
  ending <> Stopped (ViewVeryLarge Feature)
  /\ exists new,
       exchanges w' = exchanges w ++ new
       /\ Forall (fun x => request_geometry (fst x) = None) new.
Proof.
  intros B. unfold main_run. cbv zeta. rewrite B.
  assert (Stop : forall e0, e0 <> Stopped (ViewVeryLarge Feature) ->
            (e0, w) = (ending, w') ->
            ending <> Stopped (ViewVeryLarge Feature)
            /\ exists new,
                 exchanges w' = exchanges w ++ new
                 /\ Forall (fun x => request_geometry (fst x) = None) new).
  { intros e0 N H. inversion H; subst. split; [assumption|].
    exists []. rewrite app_nil_r. auto. }
  destruct (match mode ui with
            | CentroidPoints => false
            | ParcelPolygons => negb (PyStr.truthy (layer_url_of ui))
            end); [apply Stop; discriminate|].
  destruct (MapState.current_zoom_of map_state) as [e|z];
    [apply Stop; discriminate|].
  destruct (main_load _ _ _ _ _ _ _ _ _ _) as [o w0] eqn:L.
  assert (V : o <> ViewVeryLarge Feature).
  { revert L. unfold main_load.
    destruct (z <? min_zoom ui)%Z; [intros H; inversion H; discriminate|].
    unfold report.
    destruct (cached_fetch_features_geojson _ _ _ _) as [[e|g] w1];
      [destruct e|]; intros H; inversion H; discriminate. }
  apply main_load_requests in L. destruct L as (new & E & F & _).
  intros H.
  assert (Ew : w' = w0 /\ ending <> Stopped (ViewVeryLarge Feature)).
  { destruct o as [| | | | |g]; try (inversion H; split; [reflexivity|congruence]).
    destruct (features g); inversion H; split; (reflexivity || discriminate). }
  destruct Ew as [-> N]. split; [assumption|].
  exists new. split; [assumption|].
  eapply Forall_impl; [|exact F]. cbn beta. intros x (_ & _ & G). exact G.
Qed.

End Run.

Lemma run_queries_the_chosen_layer_witness :
  exists new,
    exchanges (snd (main_run (sample_remote 3 1000) str_ascii_upper 0
                      sample_sidebar (Some sample_state) empty_world))
    = exchanges empty_world ++ new
    /\ Forall (fun x =>
                 request_url (fst x)
                 = (layer_url_of sample_sidebar ++ "/query")%string
                 /\ request_where (fst x)
                    = build_where str_ascii_upper (county_name sample_sidebar)
                        (owner_search sample_sidebar) (addr_search sample_sidebar))
              new
    /\ (new <> [] ->
        (mode sample_sidebar = ParcelPolygons ->
         url_input sample_sidebar <> EmptyString)
        /\ exists z, MapState.current_zoom_of (Some sample_state) = inr z
                     /\ (min_zoom sample_sidebar <= z)%Z).
Proof.
  apply (@run_queries_the_chosen_layer Z (sample_remote 3 1000) str_ascii_upper
           0 sample_sidebar (Some sample_state) empty_world
           (snd (main_run (sample_remote 3 1000) str_ascii_upper 0
                   sample_sidebar (Some sample_state) empty_world))
           (fst (main_run (sample_remote 3 1000) str_ascii_upper 0
                   sample_sidebar (Some sample_state) empty_world))).
  vm_compute. reflexivity.
Defined.


Lemma rendered_features_are_bounded_witness :
  fst (main_run (sample_remote 5000 1000) str_ascii_upper 0 sample_sidebar
         (Some sample_state) empty_world)
  = Rendered (mkFeatureCollection "FeatureCollection" (numbered 0 2000))
  /\ (1 <= PyInt.len (numbered 0 2000) <= 2000)%Z.
Proof.
  assert (E : fst (main_run (sample_remote 5000 1000) str_ascii_upper 0
                     sample_sidebar (Some sample_state) empty_world)
              = Rendered (mkFeatureCollection "FeatureCollection" (numbered 0 2000)))
    by (vm_compute; reflexivity).
  split; [exact E|].
  refine (proj2 (@rendered_features_are_bounded Z (sample_remote 5000 1000)
                   str_ascii_upper 0 sample_sidebar (Some sample_state)
                   empty_world
                   (snd (main_run (sample_remote 5000 1000) str_ascii_upper 0
                           sample_sidebar (Some sample_state) empty_world))
                   (fst (main_run (sample_remote 5000 1000) str_ascii_upper 0
                           sample_sidebar (Some sample_state) empty_world))
                   _ _ _)
                (mkFeatureCollection "FeatureCollection" (numbered 0 2000)) E).
  - constructor.
  - vm_compute. discriminate.
  - vm_compute. reflexivity.
Defined.

Lemma no_bounds_no_spatial_filter_witness :
  MapState.bbox_from_folium_state
    (Some [("zoom", MapState.VNum (MapState.NInt 14));
           ("bounds", MapState.VNull)]%string) = inr None
  /\ exists new,
       exchanges (snd (main_run (sample_remote 3 1000) str_ascii_upper 0
                         sample_sidebar
                         (Some [("zoom", MapState.VNum (MapState.NInt 14));
                                ("bounds", MapState.VNull)]%string)
                         empty_world))
       = exchanges empty_world ++ new
       /\ Forall (fun x => request_geometry (fst x) = None) new.
Proof.
  split; [reflexivity|].
  refine (proj2 (@no_bounds_no_spatial_filter Z (sample_remote 3 1000)
                   str_ascii_upper 0 sample_sidebar
                   (Some [("zoom", MapState.VNum (MapState.NInt 14));
                          ("bounds", MapState.VNull)]%string)
                   empty_world
                   (snd (main_run (sample_remote 3 1000) str_ascii_upper 0
                           sample_sidebar
                           (Some [("zoom", MapState.VNum (MapState.NInt 14));
                                  ("bounds", MapState.VNull)]%string)
                           empty_world))
                   (fst (main_run (sample_remote 3 1000) str_ascii_upper 0
                           sample_sidebar
                           (Some [("zoom", MapState.VNum (MapState.NInt 14));
                                  ("bounds", MapState.VNull)]%string)
                           empty_world))
                   _ _)).
  - reflexivity.
  - vm_compute. reflexivity.
Defined.

End RunFacts.

(* ================================================================== *)
(** ** The popup and the tooltip of a point *)

Module PopupFacts.
Import Popup.

(** Every line of a popup begins with the bold tag. *)
Lemma popup_lines_shape props popup_fields :
  Forall (fun line => exists rest, line = ("<b>" ++ rest)%string)
         (popup_lines props popup_fields).
Proof.
  induction popup_fields as [|f fields IH]; cbn [popup_lines]; [constructor|].
  destruct (blank (get props f)); [assumption|].
  constructor; [eexists; reflexivity|assumption].
Qed.

Lemma popup_lines_nil props popup_fields :
  popup_lines props popup_fields = []
  <-> forall f, In f popup_fields -> blank (get props f) = true.
Proof.
  induction popup_fields as [|f fields IH]; cbn [popup_lines].
  - split; [intros _ f []|reflexivity].
  - destruct (blank (get props f)) eqn:B.
    + rewrite IH. split.
      * intros H g [<-|Hg]; auto.
      * intros H g Hg. apply H. now right.
    + split; [discriminate|]. intros H.
      rewrite (H f (or_introl eq_refl)) in B. discriminate.
Qed.

(** X19: the popup says "No attributes" exactly when none of the selected
    fields has a value in the feature (each is missing, null or the empty
    string); in every other case its html begins with the bold name of a
    selected field, so the two cannot be confused. *)
Theorem popup_no_attributes_iff (props : Props) (popup_fields : list string) :
  (popup_html props popup_fields = "No attributes"%string
   <-> forall f, In f popup_fields -> blank (get props f) = true)
  /\ (popup_html props popup_fields <> "No attributes"%string ->
      exists rest, popup_html props popup_fields = ("<b>" ++ rest)%string).
Proof.
  unfold popup_html.
  pose proof (popup_lines_shape props popup_fields) as S.
  pose proof (popup_lines_nil props popup_fields) as N.
  destruct (popup_lines props popup_fields) as [|line lines].
  - split; [|congruence]. split; [intros _; now apply N|reflexivity].
  - inversion S as [|? ? (rest & ->) _]; subst.
    assert (E : exists rest', PyStr.join "<br/>" (("<b>" ++ rest)%string :: lines)
                              = ("<b>" ++ rest')%string).
    { unfold PyStr.join. cbn [String.concat].
      destruct lines; [eexists; reflexivity|].
      eexists. cbn [append]. reflexivity. }
    destruct E as (rest' & E). cbv beta iota. cbn [append] in E. rewrite E.
    split; [|intros _; exists rest'; reflexivity].
    split; [discriminate|]. intros H. apply N in H. discriminate.
Qed.

(** X20: the tooltip is never empty, provided a value that counts as true
    has a non-empty text (as [str] gives for every number, boolean, list or
    dict that is true): it is the first of PARCEL_ADDR, PRINT_KEY and SBL
    that is true, or ["Parcel"]. *)
Theorem tooltip_never_empty (props : Props) :
  (forall f text, get props f = AOther text true -> text <> EmptyString) ->
  tooltip props <> EmptyString
  /\ (tooltip props = "Parcel"%string
      \/ exists f, In f ["PARCEL_ADDR"; "PRINT_KEY"; "SBL"]%string
                   /\ truthy (get props f) = true
                   /\ tooltip props = str (get props f)).
Proof.
  intros H.
  assert (T : forall f, truthy (get props f) = true -> str (get props f) <> EmptyString).
  { intros f. destruct (get props f) as [|s|text truth] eqn:G; cbn.
    - discriminate.
    - destruct s; [discriminate|discriminate].
    - intros ->. exact (H f text G). }
  unfold tooltip, or_else.
  destruct (truthy (get props "PARCEL_ADDR")) eqn:A.
  { split; [auto|]. right. exists "PARCEL_ADDR"%string. cbn; auto. }
  destruct (truthy (get props "PRINT_KEY")) eqn:B.
  { split; [auto|]. right. exists "PRINT_KEY"%string. cbn; auto. }
  destruct (truthy (get props "SBL")) eqn:C.
  { split; [auto|]. right. exists "SBL"%string. cbn; auto. }
  split; [discriminate|]. left. reflexivity.
Qed.

Lemma tooltip_never_empty_witness :
  tooltip [("SBL", AStr "12.-3-4"); ("PARCEL_ADDR", AStr ""); ("ACRES", AOther "0.5" true)]%string
  <> EmptyString.
Proof.
  apply (@tooltip_never_empty
           [("SBL", AStr "12.-3-4"); ("PARCEL_ADDR", AStr "");
            ("ACRES", AOther "0.5" true)]%string).
  intros f text. unfold get. cbn [MapState.get].
  destruct (String.eqb "SBL" f); [discriminate|].
  destruct (String.eqb "PARCEL_ADDR" f); [discriminate|].
  destruct (String.eqb "ACRES" f); [|discriminate].
  intros E. inversion E. discriminate.
Defined.

End PopupFacts.
